(** * A shallow embedding of autocert's certificate manager, ACME client and
      install command (Go), with the properties of its specification.

    Sources embedded:
    - internal/cert/manager.go   : Manager, Install, Renew, GetCertInfo, ...
    - internal/acme/client.go    : NewClient, loadOrCreateUser, saveUser,
                                   sanitizeEmail, ...
    - cmd install command         : runInstall, parseDomains,
                                   validateDomainName, validateInstallFlags,
                                   installCertificate

    Effects are threaded through a small state/error monad [M]: the state
    holds the file system, the trace of observable effects (directory
    creation, file writes, chmod, remote calls, web-server configurator
    calls), a counter for freshly generated keys and the clock.  The outside
    world (which remote calls and which file writes fail, how the web-server
    configurator answers, how fast the clock runs) is an environment [Env]. *)

From Stdlib Require Import String Ascii List ZArith Bool Lia.
From Stdlib Require SpecFloat.
Import ListNotations.
Open Scope Z_scope.
Open Scope string_scope.
Open Scope list_scope.

(* ------------------------------------------------------------------ *)
(** ** Strings *)

Definition string_eqb (a b : string) : bool := String.eqb a b.

(** [strings.HasPrefix] *)
Definition HasPrefix (s p : string) : bool := String.prefix p s.

(** [strings.Contains s sub] for a one-character [sub]. *)
Fixpoint ContainsChar (s : string) (c : ascii) : bool :=
  match s with
  | EmptyString => false
  | String c' s' => Ascii.eqb c c' || ContainsChar s' c
  end.

(** [filepath.Join] of path components (no cleaning needed: the components
    used below never contain separators or dots of their own). *)
Fixpoint Join (l : list string) : string :=
  match l with
  | [] => EmptyString
  | [x] => x
  | x :: r => String.append x (String.append "/" (Join r))
  end.

(** Go's [for _, c := range s] walks the runes (code points) of a string;
    values that are manipulated rune by rune are kept as rune lists. *)
Definition rune := Z.

Fixpoint runes (s : string) : list rune :=
  match s with
  | EmptyString => []
  | String c s' => Z.of_nat (nat_of_ascii c) :: runes s'
  end.

Fixpoint string_of_runes (l : list rune) : string :=
  match l with
  | [] => EmptyString
  | r :: l' => String (ascii_of_nat (Z.to_nat r)) (string_of_runes l')
  end.

(* ------------------------------------------------------------------ *)
(** ** Time (nanoseconds, as Go's [time.Duration]) *)

Definition Nanosecond : Z := 1.
Definition Second : Z := 1000000000.
Definition Hour : Z := 3600 * 1000000000.

Definition minDuration : Z := - 2 ^ 63.
Definition maxDuration : Z := 2 ^ 63 - 1.

(** [t.Sub(u)] on wall-clock times: the difference, saturated to the
    range of [Duration]. *)
Definition time_Sub (t u : Z) : Z := Z.max minDuration (Z.min maxDuration (t - u)).

Section Float64.
Local Open Scope Z_scope.

(** *** [float64]: IEEE 754 binary64, rounding to nearest, ties to even

    Every finite float64 is an integer multiple of 2^-1074; a float64 [x]
    is represented by the integer [x * 2^1074].  In these units the
    representable values between 2^(52+j) and 2^(53+j) (j >= 0) are the
    multiples of 2^j, and below 2^52 (the subnormals) all integers.
    Overflow is not modelled: the values computed below stay under 2^64. *)
Definition f64_unit : Z := 2 ^ 1074.

(** [n / q] rounded to the nearest integer, ties to even ([q > 0]). *)
Definition div_ne (n q : Z) : Z :=
  let k := n / q in
  let r := n mod q in
  if 2 * r <? q then k
  else if q <? 2 * r then k + 1
  else if Z.even k then k else k + 1.

(** The float64 nearest to [n / q] units, for [n >= 0] and [q > 0]: [j] is
    the spacing exponent of the binade of [n / q]. *)
Definition f64_round_pos (n q : Z) : Z :=
  let j := Z.max 0 (Z.log2 (n / q) - 52) in
  div_ne n (q * 2 ^ j) * 2 ^ j.

(** The float64 nearest to [n / q] units ([q > 0]); rounding is symmetric. *)
Definition f64_round (n q : Z) : Z :=
  if n <? 0 then - f64_round_pos (- n) q else f64_round_pos n q.

(** [float64(i)] for an integer (or an integer constant) [i] *)
Definition f64_of_int (i : Z) : Z := f64_round (i * f64_unit) 1.

(** [x + y] *)
Definition f64_add (x y : Z) : Z := f64_round (x + y) 1.

(** [x / y] for [y <> 0] *)
Definition f64_div (x y : Z) : Z :=
  if y <? 0 then f64_round (- (x * f64_unit)) (- y) else f64_round (x * f64_unit) y.

(** [int(x)]: truncation toward zero *)
Definition f64_to_int (x : Z) : Z := Z.quot x f64_unit.

(** [Duration.Hours]:
    [hour := d / Hour; nsec := d % Hour;
     return float64(hour) + float64(nsec)/(60*60*1e9)] *)
Definition Hours (d : Z) : Z :=
  let hour := Z.quot d Hour in
  let nsec := Z.rem d Hour in
  f64_add (f64_of_int hour)
    (f64_div (f64_of_int nsec) (f64_of_int (60 * 60 * 1000000000))).

End Float64.

(* ------------------------------------------------------------------ *)
(** ** Keys, certificates, file contents *)

(** A generated key is identified by the value of the key counter when it
    was generated: [rsa.GenerateKey] / [ecdsa.GenerateKey] draw from
    [crypto/rand], two generations give two different keys. *)
Inductive key : Type :=
| RSAKey (id : nat) (bits : Z)
| ECKey (id : nat).

Definition key_eqb (a b : key) : bool :=
  match a, b with
  | RSAKey i n, RSAKey j m => Nat.eqb i j && Z.eqb n m
  | ECKey i, ECKey j => Nat.eqb i j
  | _, _ => false
  end.

(** An X.509 certificate: the fields the program reads or sets. *)
Inductive certificate : Type :=
| SelfSigned (cn : string) (dnsNames : list string) (notBefore notAfter : Z)
    (subjectKey : key)
| Issued (dnsNames : list string) (notBefore notAfter : Z) (subjectKey : key).

Definition NotAfter (c : certificate) : Z :=
  match c with SelfSigned _ _ _ na _ | Issued _ _ na _ => na end.

Definition DNSNames (c : certificate) : list string :=
  match c with SelfSigned _ d _ _ _ | Issued d _ _ _ => d end.

(** An ACME account as [json.Marshal] writes a [User]. *)
Record Account := { acc_email : list rune; acc_registration : option nat }.

(** Byte contents, kept structured. *)
Inductive blob : Type :=
| BDer (c : certificate)              (* DER bytes of a certificate *)
| BPem (b : blob)                     (* one PEM block wrapping [b] *)
| BPemKey (k : key)                   (* PEM-encoded private key *)
| BConcat (a b : blob)                (* [append(a, b...)] *)
| BText (s : string)
| BAccount (a : Account)              (* account.json *)
| BEmpty.

Record file := { f_perm : Z; f_data : blob }.

(** The certificate signing request built by [createCSR]. *)
Record CSR := { csr_cn : string; csr_dnsNames : list string; csr_key : key }.

(** ** What [crypto/x509] can encode *)

(** The validity times of a certificate are encoded as UTCTime or
    GeneralizedTime, in whole seconds: [time.Time] values are truncated to
    the second when the certificate is created. *)
Definition x509_time (t : Z) : Z := t / Second * Second.

(** [isIA5String]: a DNS name of the SAN extension must be ASCII; ranging
    over a Go string, any byte from 128 on starts a rune above
    [unicode.MaxASCII] (or is [utf8.RuneError]). *)
Definition is_ia5 (s : string) : bool :=
  forallb (fun c => Nat.ltb (nat_of_ascii c) 128) (list_ascii_of_string s).

Definition byte_in (lo hi : nat) (c : ascii) : bool :=
  Nat.leb lo (nat_of_ascii c) && Nat.leb (nat_of_ascii c) hi.

(** [utf8.ValidString]: the well-formed UTF-8 sequences (no overlong
    encodings, no surrogates, nothing above U+10FFFF). *)
Fixpoint utf8_valid (l : list ascii) : bool :=
  match l with
  | [] => true
  | b :: r =>
      let n := nat_of_ascii b in
      if Nat.ltb n 128 then utf8_valid r
      else if byte_in 194 223 b then
        match r with
        | c1 :: r1 => byte_in 128 191 c1 && utf8_valid r1
        | _ => false
        end
      else if byte_in 224 239 b then
        match r with
        | c1 :: c2 :: r2 =>
            byte_in (if Nat.eqb n 224 then 160 else 128)
                    (if Nat.eqb n 237 then 159 else 191) c1 &&
            byte_in 128 191 c2 && utf8_valid r2
        | _ => false
        end
      else if byte_in 240 244 b then
        match r with
        | c1 :: c2 :: c3 :: r3 =>
            byte_in (if Nat.eqb n 240 then 144 else 128)
                    (if Nat.eqb n 244 then 143 else 191) c1 &&
            byte_in 128 191 c2 && byte_in 128 191 c3 && utf8_valid r3
        | _ => false
        end
      else false
  end.

(** Whether [x509.CreateCertificateRequest] / [x509.CreateCertificate] can
    encode a subject with common name [cn] and the SAN list [dnsNames]:
    [asn1.Marshal] of the subject fails with "asn1: string not valid UTF-8"
    on a common name that is not UTF-8, [marshalSANs] fails with
    "x509: ... cannot be encoded as an IA5String" on a non-ASCII DNS name. *)
Definition x509_names_ok (cn : string) (dnsNames : list string) : bool :=
  utf8_valid (list_ascii_of_string cn) && forallb is_ia5 dnsNames.

(* ------------------------------------------------------------------ *)
(** ** Observable effects *)

Inductive remote : Type :=
| RDirectory        (* lego.NewClient fetches the CA directory *)
| RRegister         (* Registration.Register *)
| RObtain.          (* Certificate.Obtain *)

Inductive event : Type :=
| EMkdir (path : string)
| ECreate (path : string)
| EWrite (path : string) (data : blob)
| EChmod (path : string) (perm : Z)
| ERemote (r : remote) (ok : bool)
| ESetChallenge (ok : bool)
| EConfigure (ok : bool)
| ETest (ok : bool)
| EReload (ok : bool).

Definition is_remote (e : event) : bool :=
  match e with ERemote _ _ => true | _ => false end.

Definition is_cfg (e : event) : bool :=
  match e with EConfigure _ | ETest _ | EReload _ => true | _ => false end.

(* ------------------------------------------------------------------ *)
(** ** Errors: [errors.New] / [fmt.Errorf] with [%w] wrapping *)

Inductive error : Type :=
| EMsg (msg : string)
| EWrap (ctx : string) (inner : error).

(* ------------------------------------------------------------------ *)
(** ** The outside world and the state *)

Record Env := {
  e_fs_fail : string -> bool;   (* creating / writing this path fails *)
  e_lego_ok : bool;             (* lego.NewClient reaches the CA *)
  e_register_ok : bool;         (* account registration is accepted *)
  e_challenge_ok : bool;        (* the challenge provider can be set *)
  e_obtain : option Z;          (* Obtain: None = fails, Some lifetime *)
  e_configure_ok : bool;        (* configurator.Configure *)
  e_test_ok : bool;             (* configurator.Test *)
  e_reload_ok : bool;           (* configurator.Reload *)
  e_tick : Z                    (* clock advance per time.Now() *)
}.

Record St := {
  fs : string -> option file;
  trace : list event;
  next_id : nat;
  clock : Z
}.

Inductive res (A : Type) : Type :=
| Ok (a : A)
| Err (e : error).
Arguments Ok {A} a.
Arguments Err {A} e.

Definition M (A : Type) : Type := Env -> St -> res A * St.

Definition ret {A} (a : A) : M A := fun _ s => (Ok a, s).
Definition fail {A} (e : error) : M A := fun _ s => (Err e, s).
Definition bind {A B} (m : M A) (k : A -> M B) : M B :=
  fun env s =>
    match m env s with
    | (Ok a, s') => k a env s'
    | (Err e, s') => (Err e, s')
    end.

Notation "x <- m ;; k" := (bind m (fun x => k))
  (at level 61, m at next level, right associativity).
Notation "m ;;; k" := (bind m (fun _ => k))
  (at level 61, right associativity).

(** [if err != nil { ... }]: look at the error instead of propagating it. *)
Definition catch {A} (m : M A) : M (res A) :=
  fun env s => let '(r, s') := m env s in (Ok r, s').

(** [fmt.Errorf("ctx: %w", err)] *)
Definition wrap {A} (ctx : string) (m : M A) : M A :=
  fun env s =>
    match m env s with
    | (Ok a, s') => (Ok a, s')
    | (Err e, s') => (Err (EWrap ctx e), s')
    end.

Definition ask : M Env := fun env s => (Ok env, s).
Definition get_st : M St := fun _ s => (Ok s, s).

Definition with_trace (s : St) (t : list event) : St :=
  {| fs := fs s; trace := t; next_id := next_id s; clock := clock s |}.
Definition with_fs (s : St) (f : string -> option file) : St :=
  {| fs := f; trace := trace s; next_id := next_id s; clock := clock s |}.

Definition emit (ev : event) : M unit :=
  fun _ s => (Ok tt, with_trace s (trace s ++ [ev])).

Definition fs_update (f : string -> option file) (p : string) (x : file)
  : string -> option file :=
  fun q => if string_eqb q p then Some x else f q.

Definition set_file (p : string) (x : file) : M unit :=
  fun _ s => (Ok tt, with_fs s (fs_update (fs s) p x)).

(** [time.Now()] *)
Definition now : M Z :=
  fun env s =>
    (Ok (clock s),
     {| fs := fs s; trace := trace s; next_id := next_id s;
        clock := clock s + e_tick env |}).

Definition fresh : M nat :=
  fun _ s =>
    (Ok (next_id s),
     {| fs := fs s; trace := trace s; next_id := S (next_id s);
        clock := clock s |}).

(** [rsa.GenerateKey(rand.Reader, bits)] *)
Definition rsa_GenerateKey (bits : Z) : M key :=
  i <- fresh ;; ret (RSAKey i bits).

(** [ecdsa.GenerateKey(elliptic.P256(), rand.Reader)] *)
Definition ecdsa_GenerateKey : M key :=
  i <- fresh ;; ret (ECKey i).

Definition os_error : error := EMsg "os error".

(** [os.Create(path)]: a new file gets mode 0666, an existing one keeps its
    mode and is truncated. *)
Definition os_Create (p : string) : M unit :=
  env <- ask ;; s <- get_st ;;
  if e_fs_fail env p then fail os_error
  else
    let perm := match fs s p with Some x => f_perm x | None => 438 end in
    emit (ECreate p) ;;; set_file p {| f_perm := perm; f_data := BEmpty |}.

(** Writing the contents of an open file ([pem.Encode(f, ...)]). *)
Definition file_Write (p : string) (b : blob) : M unit :=
  s <- get_st ;;
  let perm := match fs s p with Some x => f_perm x | None => 438 end in
  emit (EWrite p b) ;;; set_file p {| f_perm := perm; f_data := b |}.

(** [os.WriteFile(path, data, perm)]: [perm] is used for a new file only. *)
Definition os_WriteFile (p : string) (b : blob) (perm : Z) : M unit :=
  env <- ask ;; s <- get_st ;;
  if e_fs_fail env p then fail os_error
  else
    let perm' := match fs s p with Some x => f_perm x | None => perm end in
    emit (EWrite p b) ;;; set_file p {| f_perm := perm'; f_data := b |}.

(** [os.Chmod(path, perm)] *)
Definition os_Chmod (p : string) (perm : Z) : M unit :=
  env <- ask ;; s <- get_st ;;
  match fs s p with
  | None => fail os_error
  | Some x =>
      if e_fs_fail env p then fail os_error
      else emit (EChmod p perm) ;;;
           set_file p {| f_perm := perm; f_data := f_data x |}
  end.

(** [os.MkdirAll(path, perm)] *)
Definition os_MkdirAll (p : string) : M unit :=
  env <- ask ;;
  if e_fs_fail env p then fail os_error else emit (EMkdir p).

(** [os.Stat(path)] succeeds *)
Definition os_Exists (p : string) : M bool :=
  s <- get_st ;; ret (match fs s p with Some _ => true | None => false end).

(** [os.ReadFile(path)] *)
Definition os_ReadFile (p : string) : M blob :=
  s <- get_st ;;
  match fs s p with Some x => ret (f_data x) | None => fail os_error end.

(* ================================================================== *)
(** ** Package [acme] (internal/acme/client.go) *)

Module Acme.

Inductive ChallengeType : Type :=
| ChallengeHTTP01
| ChallengeTLSALPN01
| ChallengeDNS01.

(** [User]: the account e-mail, its registration reference and its key. *)
Record User := {
  Email : list rune;
  Registration : option nat;
  ukey : key
}.

Record Client := {
  user : User;
  configDir : string;
  staging : bool;
  webroot : string
}.

Record ClientConfig := {
  cfg_Email : list rune;
  cfg_ConfigDir : string;
  cfg_Staging : bool;
  cfg_Webroot : string
}.

(** The certificate resource returned by lego's [Certificate.Obtain]. *)
Record Resource := {
  r_Domain : string;
  r_Certificate : blob;
  r_PrivateKey : blob;
  r_IssuerCertificate : option blob
}.

(** The rune test of [sanitizeEmail]. *)
Definition sanitize_keeps (c : rune) : bool :=
  (((97 <=? c) && (c <=? 122)) || ((65 <=? c) && (c <=? 90)) ||
   ((48 <=? c) && (c <=? 57)) || (c =? 45) || (c =? 95) || (c =? 46))%Z.

(** [sanitizeEmail]: every rune outside [a-zA-Z0-9-_.] becomes ['_']. *)
Fixpoint sanitizeEmail (email : list rune) : list rune :=
  match email with
  | [] => []
  | c :: rest =>
      (if sanitize_keeps c then c else 95) :: sanitizeEmail rest
  end.

Definition userDir (dir : string) (email : list rune) : string :=
  Join [dir; "accounts"; string_of_runes (sanitizeEmail email)].
Definition userFile (dir : string) (email : list rune) : string :=
  Join [userDir dir email; "account.json"].
Definition keyFile (dir : string) (email : list rune) : string :=
  Join [userDir dir email; "account.key"].

(** [loadUser] *)
Definition loadUser (uf kf : string) : M User :=
  userData <- os_ReadFile uf ;;
  match userData with
  | BAccount a =>
      keyData <- os_ReadFile kf ;;
      match keyData with
      | BPemKey (ECKey i) =>
          ret {| Email := acc_email a; Registration := acc_registration a;
                 ukey := ECKey i |}
      | BPemKey _ => fail (EMsg "x509: failed to parse EC private key")
      | _ => fail (EMsg "cannot parse private key file")
      end
  | _ => fail (EMsg "json: cannot unmarshal user")
  end.

(** [loadOrCreateUser] *)
Definition loadOrCreateUser (dir : string) (email : list rune) : M User :=
  exists_ <- os_Exists (userFile dir email) ;;
  if exists_ then loadUser (userFile dir email) (keyFile dir email)
  else
    privateKey <- ecdsa_GenerateKey ;;
    let u := {| Email := email; Registration := None; ukey := privateKey |} in
    os_MkdirAll (userDir dir email) ;;;
    os_WriteFile (keyFile dir email) (BPemKey privateKey) 384 ;;;
    ret u.

(** [saveUser]: the directory is derived from the user's own e-mail. *)
Definition saveUser (c : Client) (u : User) : M unit :=
  os_MkdirAll (userDir (configDir c) (Email u)) ;;;
  os_WriteFile (userFile (configDir c) (Email u))
    (BAccount {| acc_email := Email u; acc_registration := Registration u |})
    384.

(** [lego.NewClient(config)]: fetches the CA directory. *)
Definition lego_NewClient : M unit :=
  env <- ask ;;
  emit (ERemote RDirectory (e_lego_ok env)) ;;;
  if e_lego_ok env then ret tt else fail (EMsg "acme: directory unreachable").

(** [legoClient.Registration.Register(...)]: returns a fresh registration. *)
Definition lego_Register : M nat :=
  env <- ask ;;
  emit (ERemote RRegister (e_register_ok env)) ;;;
  if e_register_ok env then fresh else fail (EMsg "acme: registration refused").

(** [NewClient] *)
Definition NewClient (cfg : ClientConfig) : M Client :=
  match cfg_Email cfg with
  | [] => fail (EMsg "email must not be empty")
  | _ =>
    u <- wrap "load user failed" (loadOrCreateUser (cfg_ConfigDir cfg) (cfg_Email cfg)) ;;
    let client := {| user := u; configDir := cfg_ConfigDir cfg;
                     staging := cfg_Staging cfg; webroot := cfg_Webroot cfg |} in
    wrap "create ACME client failed" lego_NewClient ;;;
    match Registration u with
    | None =>
        reg <- wrap "register ACME account failed" lego_Register ;;
        let u' := {| Email := Email u; Registration := Some reg; ukey := ukey u |} in
        let client' := {| user := u'; configDir := configDir client;
                          staging := staging client; webroot := webroot client |} in
        (* if err := client.saveUser(user); err != nil { logger.Warn(...) } *)
        _ <- catch (saveUser client' u') ;;
        ret client'
    | Some _ => ret client
    end
  end.

(** [SetHTTPChallenge] / [SetTLSChallenge]: both install a provider server
    (the port only differs). *)
Definition set_provider : M unit :=
  env <- ask ;;
  emit (ESetChallenge (e_challenge_ok env)) ;;;
  if e_challenge_ok env then ret tt else fail (EMsg "acme: cannot set provider").

Definition SetHTTPChallenge (c : Client) : M unit := set_provider.
Definition SetTLSChallenge (c : Client) : M unit := set_provider.

(** [ObtainCertificate]: lego generates the certificate key itself
    ([KeyType = RSA2048], no CSR is passed) and returns the certificate
    bundled with its issuer ([Bundle: true]). *)
Definition ObtainCertificate (c : Client) (domains : list string) : M Resource :=
  env <- ask ;;
  match e_obtain env with
  | None =>
      emit (ERemote RObtain false) ;;;
      fail (EWrap "obtain certificate failed" (EMsg "acme: order failed"))
  | Some lifetime =>
      emit (ERemote RObtain true) ;;;
      k <- rsa_GenerateKey 2048 ;;
      t <- now ;;
      let issuer := BPem (BText "issuer") in
      ret {| r_Domain := hd EmptyString domains;
             r_Certificate :=
               BConcat (BPem (BDer (Issued domains t (t + lifetime) k))) issuer;
             r_PrivateKey := BPemKey k;
             r_IssuerCertificate := Some issuer |}
  end.

(** [SaveCertificate] *)
Definition SaveCertificate (c : Client) (cert : Resource) (certDir : string)
  : M unit :=
  wrap "create certificate directory failed" (os_MkdirAll certDir) ;;;
  wrap "save certificate failed"
    (os_WriteFile (Join [certDir; "cert.pem"]) (r_Certificate cert) 420) ;;;
  wrap "save private key failed"
    (os_WriteFile (Join [certDir; "key.pem"]) (r_PrivateKey cert) 384) ;;;
  match r_IssuerCertificate cert with
  | Some i => wrap "save chain failed"
                (os_WriteFile (Join [certDir; "chain.pem"]) i 420)
  | None => ret tt
  end ;;;
  let fullchain := match r_IssuerCertificate cert with
                   | Some i => BConcat (r_Certificate cert) i
                   | None => r_Certificate cert
                   end in
  wrap "save full chain failed"
    (os_WriteFile (Join [certDir; "fullchain.pem"]) fullchain 420) ;;;
  _ <- catch (os_WriteFile (Join [certDir; "cert.json"])
                (BText (r_Domain cert)) 420) ;;
  ret tt.

End Acme.

(* ================================================================== *)
(** ** Package [cert] (internal/cert/manager.go) *)

Module Cert.

Inductive ChallengeType : Type :=
| ChallengeWebroot
| ChallengeStandalone
| ChallengeDNS.

Definition challenge_eqb (a b : ChallengeType) : bool :=
  match a, b with
  | ChallengeWebroot, ChallengeWebroot
  | ChallengeStandalone, ChallengeStandalone
  | ChallengeDNS, ChallengeDNS => true
  | _, _ => false
  end.

Inductive WebServerType : Type :=
| WebServerNginx
| WebServerApache
| WebServerIIS.

(** [Manager].  [configurator] records whether a web-server configurator is
    bound ([m.configurator != nil]); how it answers is part of [Env]. *)
Record Manager := {
  domains : list string;
  primaryDomain : string;
  email : list rune;
  challengeType : ChallengeType;
  webrootPath : string;
  webServerType : WebServerType;
  certDir : string;          (* config.GetCertDir() *)
  keySize : Z;
  configurator : bool
}.

(** [NewManagerWithDomains] (the certificate directory is the value of
    [config.GetCertDir()]). *)
Definition NewManagerWithDomains (ds : list string) (em : list rune)
  (dir : string) : option Manager :=
  match ds with
  | [] => None
  | d0 :: _ =>
      Some {| domains := ds; primaryDomain := d0; email := em;
              challengeType := ChallengeWebroot; webrootPath := "";
              webServerType := WebServerNginx; certDir := dir;
              keySize := 2048; configurator := false |}
  end.

Definition SetChallengeType (m : Manager) (c : ChallengeType) : Manager :=
  {| domains := domains m; primaryDomain := primaryDomain m; email := email m;
     challengeType := c; webrootPath := webrootPath m;
     webServerType := webServerType m; certDir := certDir m;
     keySize := keySize m; configurator := configurator m |}.

Definition SetWebrootPath (m : Manager) (p : string) : Manager :=
  {| domains := domains m; primaryDomain := primaryDomain m; email := email m;
     challengeType := challengeType m; webrootPath := p;
     webServerType := webServerType m; certDir := certDir m;
     keySize := keySize m; configurator := configurator m |}.

(** [SetWebServer]: [webserver.NewConfigurator] knows the three server
    types, so a configurator is bound. *)
Definition SetWebServer (m : Manager) (w : WebServerType) : Manager :=
  {| domains := domains m; primaryDomain := primaryDomain m; email := email m;
     challengeType := challengeType m; webrootPath := webrootPath m;
     webServerType := w; certDir := certDir m;
     keySize := keySize m; configurator := true |}.

(** [HasWildcard] *)
Definition HasWildcard (m : Manager) : bool :=
  existsb (fun d => HasPrefix d "*.") (domains m).

(** [getDirName] *)
Definition getDirName (m : Manager) : string :=
  if (1 <? Z.of_nat (length (domains m)))%Z
  then String.append (primaryDomain m) "_san"
  else primaryDomain m.

Definition getCertPath (m : Manager) : string :=
  Join [certDir m; getDirName m; "cert.pem"].
Definition getKeyPath (m : Manager) : string :=
  Join [certDir m; getDirName m; "key.pem"].
Definition getChainPath (m : Manager) : string :=
  Join [certDir m; getDirName m; "chain.pem"].

(** [createCertDir] *)
Definition createCertDir (m : Manager) : M unit :=
  os_MkdirAll (Join [certDir m; getDirName m]).

(** [generatePrivateKey]: generate, create the key file, PEM-encode the key
    into it, then restrict it to 0600 (= 384). *)
Definition generatePrivateKey (m : Manager) : M key :=
  privateKey <- rsa_GenerateKey (keySize m) ;;
  let keyPath := getKeyPath m in
  os_Create keyPath ;;;
  file_Write keyPath (BPemKey privateKey) ;;;
  os_Chmod keyPath 384 ;;;
  ret privateKey.

(** [createCSR]: CN = primary domain, every domain in the SAN list;
    [x509.CreateCertificateRequest] fails on names it cannot encode. *)
Definition createCSR (m : Manager) (privateKey : key) : M CSR :=
  if x509_names_ok (primaryDomain m) (domains m)
  then ret {| csr_cn := primaryDomain m; csr_dnsNames := domains m;
              csr_key := privateKey |}
  else fail (EMsg "x509: name cannot be encoded").

(** [generateSelfSignedCert]: the two [time.Now()] calls of the template
    literal are two clock readings; the certificate is signed by a key pair
    generated here.  [x509.CreateCertificate] fails on names it cannot
    encode, and stores both times truncated to the second.  (The template
    has no [SerialNumber]: [CreateCertificate] draws a random one, as Go
    does from 1.24 on.) *)
Definition generateSelfSignedCert (m : Manager) (csr : option CSR) : M blob :=
  let '(subject, dnsNames) :=
    match csr with
    | Some c => (csr_cn c, csr_dnsNames c)
    | None => (primaryDomain m, domains m)
    end in
  notBefore <- now ;;
  t <- now ;;
  let notAfter := t + 90 * 24 * Hour in
  privateKey <- rsa_GenerateKey 2048 ;;
  if x509_names_ok subject dnsNames
  then ret (BDer (SelfSigned subject dnsNames (x509_time notBefore)
                    (x509_time notAfter) privateKey))
  else fail (EMsg "x509: name cannot be encoded").

(** [obtainWithACME] *)
Definition obtainWithACME (m : Manager) (ct : Acme.ChallengeType) : M blob :=
  r <- catch (Acme.NewClient {| Acme.cfg_Email := email m;
                                Acme.cfg_ConfigDir := certDir m;
                                Acme.cfg_Staging := false;
                                Acme.cfg_Webroot := webrootPath m |}) ;;
  match r with
  | Err _ => generateSelfSignedCert m None
  | Ok client =>
      r2 <- catch (match ct with
                   | Acme.ChallengeHTTP01 => Acme.SetHTTPChallenge client
                   | Acme.ChallengeTLSALPN01 => Acme.SetTLSChallenge client
                   | Acme.ChallengeDNS01 => ret tt
                   end) ;;
      match r2 with
      | Err _ => generateSelfSignedCert m None
      | Ok _ =>
          r3 <- catch (Acme.ObtainCertificate client (domains m)) ;;
          match r3 with
          | Err _ => generateSelfSignedCert m None
          | Ok cert =>
              wrap "save certificate failed"
                (Acme.SaveCertificate client cert
                   (Join [certDir m; getDirName m])) ;;;
              ret (Acme.r_Certificate cert)
          end
      end
  end.

Definition obtainCertificateWebroot (m : Manager) (csr : CSR) : M blob :=
  if HasWildcard m
  then fail (EMsg "wildcard certificates cannot use HTTP validation")
  else obtainWithACME m Acme.ChallengeHTTP01.

Definition obtainCertificateStandalone (m : Manager) (csr : CSR) : M blob :=
  if HasWildcard m
  then fail (EMsg "wildcard certificates cannot use TLS-ALPN validation")
  else obtainWithACME m Acme.ChallengeTLSALPN01.

(** [obtainCertificateDNS]: no DNS provider yet, self-signed from the CSR. *)
Definition obtainCertificateDNS (m : Manager) (csr : CSR) : M blob :=
  generateSelfSignedCert m (Some csr).

(** [obtainCertificate] *)
Definition obtainCertificate (m : Manager) (csr : CSR) : M blob :=
  match challengeType m with
  | ChallengeWebroot => obtainCertificateWebroot m csr
  | ChallengeStandalone => obtainCertificateStandalone m csr
  | ChallengeDNS => obtainCertificateDNS m csr
  end.

Fixpoint strings_Join (l : list string) (sep : string) : string :=
  match l with
  | [] => EmptyString
  | [x] => x
  | x :: r => String.append x (String.append sep (strings_Join r sep))
  end.

(** [saveCertificate]: PEM-encode [certBytes] into the certificate path. *)
Definition saveCertificate (m : Manager) (certBytes : blob) : M unit :=
  let certPath := getCertPath m in
  os_Create certPath ;;;
  file_Write certPath (BPem certBytes) ;;;
  (if (1 <? Z.of_nat (length (domains m)))%Z
   then _ <- catch (os_WriteFile (Join [certDir m; getDirName m; "domains.txt"])
                     (BText (strings_Join (domains m) (String "010" EmptyString)))
                     420) ;;
        ret tt
   else ret tt).

(** The bound configurator's three operations. *)
Definition cfg_Configure : M unit :=
  env <- ask ;; emit (EConfigure (e_configure_ok env)) ;;;
  if e_configure_ok env then ret tt else fail (EMsg "configure failed").
Definition cfg_Test : M unit :=
  env <- ask ;; emit (ETest (e_test_ok env)) ;;;
  if e_test_ok env then ret tt else fail (EMsg "configuration test failed").
Definition cfg_Reload : M unit :=
  env <- ask ;; emit (EReload (e_reload_ok env)) ;;;
  if e_reload_ok env then ret tt else fail (EMsg "reload failed").

(** [configureWebServer] *)
Definition configureWebServer (m : Manager) : M unit :=
  if negb (configurator m) then ret tt
  else
    cfg_Configure ;;;
    wrap "configuration test failed" cfg_Test ;;;
    wrap "reload configuration failed" cfg_Reload ;;;
    ret tt.

Definition msg_wildcard : string := "wildcard certificates require DNS validation".
Definition ctx_obtain : string := "obtain certificate failed".

(** [Install] *)
Definition Install (m : Manager) : M unit :=
  if HasWildcard m && negb (challenge_eqb (challengeType m) ChallengeDNS)
  then fail (EMsg msg_wildcard)
  else
    wrap "create certificate directory failed" (createCertDir m) ;;;
    privateKey <- wrap "generate private key failed" (generatePrivateKey m) ;;
    csr <- wrap "create CSR failed" (createCSR m privateKey) ;;
    certBytes <- wrap ctx_obtain (obtainCertificate m csr) ;;
    wrap "save certificate failed" (saveCertificate m certBytes) ;;;
    wrap "configure web server failed" (configureWebServer m) ;;;
    ret tt.

(** [CertInfo] *)
Record CertInfo := {
  Domain : string;
  Domains : list string;
  CertPath : string;
  KeyPath : string;
  ChainPath : string;
  ExpiryDate : Z;
  IsValid : bool;
  DaysLeft : Z
}.

(** [pem.Decode]: the first PEM block. *)
Fixpoint pem_Decode (b : blob) : option blob :=
  match b with
  | BPem x => Some x
  | BConcat a c =>
      match pem_Decode a with Some x => Some x | None => pem_Decode c end
  | _ => None
  end.

(** [x509.ParseCertificate] *)
Definition x509_ParseCertificate (b : blob) : option certificate :=
  match b with BDer c => Some c | _ => None end.

(** [GetCertInfo].  [time.Until(na)] is [na.Sub(time.Now())]; the days
    left are [int(time.Until(na).Hours() / 24)], computed in float64. *)
Definition GetCertInfo (m : Manager) : M CertInfo :=
  let certPath := getCertPath m in
  exists_ <- os_Exists certPath ;;
  if negb exists_ then fail (EMsg "certificate file does not exist")
  else
    certData <- wrap "read certificate file failed" (os_ReadFile certPath) ;;
    match pem_Decode certData with
    | None => fail (EMsg "cannot parse certificate file")
    | Some block =>
        match x509_ParseCertificate block with
        | None => fail (EWrap "parse certificate failed" (EMsg "x509: malformed"))
        | Some c =>
            t1 <- now ;;
            let daysLeft :=
              f64_to_int (f64_div (Hours (time_Sub (NotAfter c) t1)) (f64_of_int 24)) in
            t2 <- now ;;
            ret {| Domain := primaryDomain m; Domains := DNSNames c;
                   CertPath := certPath; KeyPath := getKeyPath m;
                   ChainPath := getChainPath m; ExpiryDate := NotAfter c;
                   IsValid := Z.ltb t2 (NotAfter c); DaysLeft := daysLeft |}
        end
    end.

(** [Renew] *)
Definition Renew (m : Manager) : M unit :=
  certInfo <- wrap "get certificate info failed" (GetCertInfo m) ;;
  if Z.gtb (DaysLeft certInfo) 30 then ret tt
  else Install m.

End Cert.

(* ================================================================== *)
(** ** Package [cmd]: the [install] command *)

Module Cmd.
Import Cert.

(** The command-line flags of [install]. *)
Record Flags := {
  fl_domain : string;
  fl_domains : string;
  fl_email : list rune;
  fl_webroot : string;
  fl_standalone : bool;
  fl_dns : bool;
  fl_nginx : bool;
  fl_apache : bool;
  fl_iis : bool
}.

(** [strings.Split(s, sep)] for a one-character separator. *)
Fixpoint Split (s : string) (sep : ascii) : list string :=
  match s with
  | EmptyString => [EmptyString]
  | String c s' =>
      if Ascii.eqb c sep then EmptyString :: Split s' sep
      else match Split s' sep with
           | [] => [String c EmptyString]
           | x :: r => String c x :: r
           end
  end.

(** [unicode.IsSpace] on the runes of a Go string: the ASCII white space
    ('\t', '\n', '\v', '\f', '\r', ' ') and, in UTF-8, U+0085 and U+00A0
    (two bytes) and U+1680, U+2000 to U+200A, U+2028, U+2029, U+202F,
    U+205F and U+3000 (three bytes).  A byte that does not start a valid
    encoding decodes as [utf8.RuneError], which is not a space. *)
Definition is_space (c : ascii) : bool :=
  let n := nat_of_ascii c in ((9 <=? n) && (n <=? 13))%nat || (n =? 32)%nat.

Definition space2 (a b : nat) : bool :=
  (a =? 194)%nat && ((b =? 133)%nat || (b =? 160)%nat).

Definition space3 (a b c : nat) : bool :=
  ((a =? 225)%nat && (b =? 154)%nat && (c =? 128)%nat) ||
  ((a =? 226)%nat && (b =? 128)%nat &&
     (((128 <=? c)%nat && (c <=? 138)%nat) || (c =? 168)%nat || (c =? 169)%nat
      || (c =? 175)%nat)) ||
  ((a =? 226)%nat && (b =? 129)%nat && (c =? 159)%nat) ||
  ((a =? 227)%nat && (b =? 128)%nat && (c =? 128)%nat).

(** Drop white-space runes from the front of a byte list; [sp2] and [sp3]
    recognise the two- and three-byte encodings in the order the bytes are
    met. *)
Fixpoint strip_spaces (sp2 : nat -> nat -> bool) (sp3 : nat -> nat -> nat -> bool)
    (l : list ascii) : list ascii :=
  match l with
  | [] => []
  | a :: r =>
      if is_space a then strip_spaces sp2 sp3 r
      else match r with
           | b :: r2 =>
               if sp2 (nat_of_ascii a) (nat_of_ascii b)
               then strip_spaces sp2 sp3 r2
               else match r2 with
                    | c :: r3 =>
                        if sp3 (nat_of_ascii a) (nat_of_ascii b) (nat_of_ascii c)
                        then strip_spaces sp2 sp3 r3
                        else l
                    | [] => l
                    end
           | [] => l
           end
  end.

(** [strings.TrimLeftFunc(s, unicode.IsSpace)]: [utf8.DecodeRuneInString]
    from the front. *)
Definition trim_left (l : list ascii) : list ascii := strip_spaces space2 space3 l.

(** [strings.TrimRightFunc(s, unicode.IsSpace)]: [utf8.DecodeLastRuneInString]
    from the back, i.e. the same on the reversed bytes with the encodings
    read backwards. *)
Definition trim_right (l : list ascii) : list ascii :=
  rev (strip_spaces (fun b a => space2 a b) (fun c b a => space3 a b c) (rev l)).

(** [strings.TrimSpace]: its ASCII fast paths give the same result as
    [TrimFunc(s, unicode.IsSpace)]. *)
Definition TrimSpace (s : string) : string :=
  string_of_list_ascii (trim_right (trim_left (list_ascii_of_string s))).

(** [validateDomainName] *)
Definition validateDomainName (domain : string) : res unit :=
  if (String.length domain =? 0)%nat then Err (EMsg "domain must not be empty")
  else
    match
      (if HasPrefix domain "*."
       then if (String.length domain <? 4)%nat
            then Some (EMsg "invalid wildcard domain")
            else
              let baseDomain := substring 2 (String.length domain - 2) domain in
              if ContainsChar baseDomain "*"
              then Some (EMsg "a wildcard domain has one wildcard, at the start")
              else None
       else None)
    with
    | Some e => Err e
    | None =>
        if ContainsChar domain " "
        then Err (EMsg "domain must not contain spaces")
        else Ok tt
    end.

(** The checking loop of [parseDomains]. *)
Fixpoint checkDomains (l : list string) : res unit :=
  match l with
  | [] => Ok tt
  | d :: r =>
      if string_eqb d "" then Err (EMsg "domain must not be empty")
      else match validateDomainName d with
           | Err e => Err (EWrap "invalid domain format" e)
           | Ok _ => checkDomains r
           end
  end.

(** [parseDomains] *)
Definition parseDomains (fl : Flags) : res (list string) :=
  match
    (if negb (string_eqb (fl_domains fl) "")
     then Some (map TrimSpace (Split (fl_domains fl) ","))
     else if negb (string_eqb (fl_domain fl) "")
     then Some [TrimSpace (fl_domain fl)]
     else None)
  with
  | None => Err (EMsg "--domain or --domains is required")
  | Some domainList =>
      match checkDomains domainList with
      | Err e => Err e
      | Ok _ => Ok domainList
      end
  end.

Definition msg_one_server : string := "only one web server type may be given".
Definition msg_need_server : string := "a web server type is required".
Definition msg_wildcard_dns : string :=
  "wildcard certificates require DNS validation, add --dns".
Definition msg_conflict : string :=
  "only one validation mode may be given: --standalone, --webroot or --dns".

Definition b2z (b : bool) : Z := if b then 1 else 0.

(** [validateInstallFlags] *)
Definition validateInstallFlags (fl : Flags) (domainList : list string)
  : res unit :=
  if negb (fl_nginx fl) && negb (fl_apache fl) && negb (fl_iis fl)
  then Err (EMsg msg_need_server)
  else
    let count := b2z (fl_nginx fl) + b2z (fl_apache fl) + b2z (fl_iis fl) in
    if (count >? 1)%Z then Err (EMsg msg_one_server)
    else
      let hasWildcard := existsb (fun d => HasPrefix d "*.") domainList in
      if hasWildcard && negb (fl_dns fl) then Err (EMsg msg_wildcard_dns)
      else
        let challengeCount :=
          b2z (fl_standalone fl) + b2z (negb (string_eqb (fl_webroot fl) ""))
          + b2z (fl_dns fl) in
        if (challengeCount >? 1)%Z then Err (EMsg msg_conflict)
        else Ok tt.

(** The counts [validateInstallFlags] checks, named for the statements
    below: web-server flags, explicit challenge intents, and whether a
    wildcard domain is requested without --dns. *)
Definition server_count (fl : Flags) : Z :=
  b2z (fl_nginx fl) + b2z (fl_apache fl) + b2z (fl_iis fl).
Definition intent_count (fl : Flags) : Z :=
  b2z (fl_standalone fl) + b2z (negb (string_eqb (fl_webroot fl) "")) + b2z (fl_dns fl).
Definition wildcard_without_dns (fl : Flags) (domainList : list string) : bool :=
  existsb (fun d => HasPrefix d "*.") domainList && negb (fl_dns fl).

(** The manager [installCertificate] builds before calling [Install]. *)
Definition buildManager (fl : Flags) (dir : string) (domainList : list string)
  : option Manager :=
  match NewManagerWithDomains domainList (fl_email fl) dir with
  | None => None
  | Some m =>
      let m1 :=
        if fl_dns fl || HasWildcard m then SetChallengeType m ChallengeDNS
        else if fl_standalone fl then SetChallengeType m ChallengeStandalone
        else if negb (string_eqb (fl_webroot fl) "")
        then SetWebrootPath (SetChallengeType m ChallengeWebroot) (fl_webroot fl)
        else SetChallengeType m ChallengeWebroot in
      let m2 :=
        if fl_nginx fl then SetWebServer m1 WebServerNginx
        else if fl_apache fl then SetWebServer m1 WebServerApache
        else if fl_iis fl then SetWebServer m1 WebServerIIS
        else m1 in
      Some m2
  end.

(** [installCertificate] *)
Definition installCertificate (fl : Flags) (dir : string)
  (domainList : list string) : M unit :=
  match buildManager fl dir domainList with
  | None => fail (EMsg "creating the certificate manager failed")
  | Some m => wrap "certificate install failed" (Install m)
  end.

(** [runInstall]; [dir] is [config.GetCertDir()]. *)
Definition runInstall (fl : Flags) (dir : string) : M unit :=
  match parseDomains fl with
  | Err e => fail (EWrap "parsing domains failed" e)
  | Ok domainList =>
      match validateInstallFlags fl domainList with
      | Err e => fail (EWrap "flag validation failed" e)
      | Ok _ => installCertificate fl dir domainList
      end
  end.

End Cmd.

(* ================================================================== *)
(** ** Package [cert]: building a manager from a comma-separated list *)

Module CertCtor.
Import Cert.

(** [parseDomainList] *)
Definition parseDomainList (domains : string) : list string :=
  if string_eqb domains "" then []
  else
    filter (fun d => negb (string_eqb d ""))
      (map Cmd.TrimSpace (Cmd.Split domains ",")).

(** [NewManager]; [dir] is [config.GetCertDir()]. *)
Definition NewManager (domains : string) (em : list rune) (dir : string)
  : option Manager :=
  let domainList := parseDomainList domains in
  match domainList with
  | [] => None
  | d0 :: _ =>
      Some {| Cert.domains := domainList; primaryDomain := d0; email := em;
              challengeType := ChallengeWebroot; webrootPath := "";
              webServerType := WebServerNginx; certDir := dir;
              keySize := 2048; configurator := false |}
  end.

(** [IsMultiDomain] *)
Definition IsMultiDomain (m : Manager) : bool :=
  (1 <? Z.of_nat (length (Cert.domains m)))%Z.

End CertCtor.

(* ================================================================== *)
(** ** Package [cmd]: the [renew] and [status] commands *)

Module CmdRenew.
Import Cert.

(** [renewDomainCert]: the manager is built with an empty e-mail. *)
Definition renewDomainCert (dir : string) (domain : string) : M unit :=
  match CertCtor.NewManager domain [] dir with
  | None => fail (EMsg "creating the certificate manager failed")
  | Some certManager =>
      wrap (String.append "certificate renewal failed for domain " domain)
        (Renew certManager)
  end.

(** [renewAllCerts]: only prints a message. *)
Definition renewAllCerts : M unit := ret tt.

(** [runRenew] *)
Definition runRenew (dir : string) (renewDomain : string) : M unit :=
  if negb (string_eqb renewDomain "") then renewDomainCert dir renewDomain
  else renewAllCerts.

(** [showDomainStatus]: the information it prints. *)
Definition showDomainStatus (dir : string) (domain : string) : M CertInfo :=
  match CertCtor.NewManager domain [] dir with
  | None => fail (EMsg "creating the certificate manager failed")
  | Some certManager =>
      wrap (String.append "reading certificate information failed for domain "
              domain)
        (GetCertInfo certManager)
  end.

End CmdRenew.

(* ================================================================== *)
(** * Properties *)

(** ** Effects only extend the trace, never drop a file, never reuse a key *)

Section Appends.

(** [m] only appends events satisfying [P] to the trace, keeps every file
    that exists, and never decreases the key counter. *)
Definition Appends {A} (P : event -> Prop) (m : M A) : Prop :=
  forall env s r s', m env s = (r, s') ->
    exists l, trace s' = trace s ++ l /\ Forall P l /\
      (next_id s <= next_id s')%nat /\
      (forall p, fs s p <> None -> fs s' p <> None).

Definition nocfg (e : event) : Prop := is_cfg e = false.

Variable P : event -> Prop.

Lemma Appends_ret {A} (a : A) : Appends P (ret a).
Proof.
  intros env s r s' H; inversion H; subst.
  exists []; rewrite app_nil_r; repeat split; auto.
Qed.

Lemma Appends_fail {A} (e : error) : Appends P (@fail A e).
Proof.
  intros env s r s' H; inversion H; subst.
  exists []; rewrite app_nil_r; repeat split; auto.
Qed.

Lemma Appends_ask : Appends P ask.
Proof.
  intros env s r s' H; inversion H; subst.
  exists []; rewrite app_nil_r; repeat split; auto.
Qed.

Lemma Appends_get_st : Appends P get_st.
Proof.
  intros env s r s' H; inversion H; subst.
  exists []; rewrite app_nil_r; repeat split; auto.
Qed.

Lemma Appends_now : Appends P now.
Proof.
  intros env s r s' H; inversion H; subst.
  exists []; simpl; rewrite app_nil_r; repeat split; auto.
Qed.

Lemma Appends_fresh : Appends P fresh.
Proof.
  intros env s r s' H; inversion H; subst.
  exists []; simpl; rewrite app_nil_r; repeat split; auto.
Qed.

Lemma Appends_set_file p x : Appends P (set_file p x).
Proof.
  intros env s r s' H; inversion H; subst.
  exists []; simpl; rewrite app_nil_r; repeat split; auto.
  intros q Hq; unfold fs_update; destruct (string_eqb q p); congruence.
Qed.

Lemma Appends_emit ev : P ev -> Appends P (emit ev).
Proof.
  intros Hev env s r s' H; inversion H; subst.
  exists [ev]; simpl; repeat split; auto.
Qed.

Lemma Appends_bind {A B} (m : M A) (k : A -> M B) :
  Appends P m -> (forall a, Appends P (k a)) -> Appends P (bind m k).
Proof.
  intros Hm Hk env s r s' H; unfold bind in H.
  destruct (m env s) as [[a|e] s1] eqn:E.
  - destruct (Hm _ _ _ _ E) as (l1 & T1 & F1 & N1 & K1).
    destruct (Hk a _ _ _ _ H) as (l2 & T2 & F2 & N2 & K2).
    exists (l1 ++ l2); rewrite T2, T1, app_assoc; repeat split.
    + apply Forall_app; auto.
    + lia.
    + auto.
  - inversion H; subst; eapply Hm; eauto.
Qed.

Lemma Appends_catch {A} (m : M A) : Appends P m -> Appends P (catch m).
Proof.
  intros Hm env s r s' H; unfold catch in H.
  destruct (m env s) as [r0 s1] eqn:E; inversion H; subst; eapply Hm; eauto.
Qed.

Lemma Appends_wrap {A} ctx (m : M A) : Appends P m -> Appends P (wrap ctx m).
Proof.
  intros Hm env s r s' H; unfold wrap in H.
  destruct (m env s) as [[a|e] s1] eqn:E; inversion H; subst; eapply Hm; eauto.
Qed.

Lemma Appends_weaken {A} (Q : event -> Prop) (m : M A) :
  (forall e, P e -> Q e) -> Appends P m -> Appends Q m.
Proof.
  intros HPQ Hm env s r s' H.
  destruct (Hm _ _ _ _ H) as (l & T & F & N & K).
  exists l; repeat split; auto.
  eapply Forall_impl; eauto.
Qed.

End Appends.

Create HintDb appends.
#[export] Hint Resolve Appends_ret Appends_fail Appends_ask Appends_get_st
  Appends_now Appends_fresh Appends_set_file : appends.

(** Walk a monadic program: binds, wraps, catches, and the case splits of
    its [if]s and [match]es. *)
Ltac appends_step :=
  match goal with
  | |- Appends _ (bind _ _) => apply Appends_bind; [| intro]
  | |- Appends _ (wrap _ _) => apply Appends_wrap
  | |- Appends _ (catch _) => apply Appends_catch
  | |- Appends _ (emit _) => apply Appends_emit; first [exact I | reflexivity]
  | |- Appends _ (if ?b then _ else _) => destruct b
  | |- Appends _ (match ?x with _ => _ end) => destruct x
  | |- Appends _ _ => solve [eauto with appends]
  end.
Ltac appends_solve := cbv zeta; repeat appends_step.

Lemma os_Create_appends p : Appends nocfg (os_Create p).
Proof. unfold os_Create; appends_solve. Qed.
Lemma file_Write_appends p b : Appends nocfg (file_Write p b).
Proof. unfold file_Write; appends_solve. Qed.
Lemma os_WriteFile_appends p b perm : Appends nocfg (os_WriteFile p b perm).
Proof. unfold os_WriteFile; appends_solve. Qed.
Lemma os_Chmod_appends p perm : Appends nocfg (os_Chmod p perm).
Proof. unfold os_Chmod; appends_solve. Qed.
Lemma os_MkdirAll_appends p : Appends nocfg (os_MkdirAll p).
Proof. unfold os_MkdirAll; appends_solve. Qed.
Lemma os_Exists_appends p : Appends nocfg (os_Exists p).
Proof. unfold os_Exists; appends_solve. Qed.
Lemma os_ReadFile_appends p : Appends nocfg (os_ReadFile p).
Proof. unfold os_ReadFile; appends_solve. Qed.
Lemma rsa_GenerateKey_appends n : Appends nocfg (rsa_GenerateKey n).
Proof. unfold rsa_GenerateKey; appends_solve. Qed.
Lemma ecdsa_GenerateKey_appends : Appends nocfg ecdsa_GenerateKey.
Proof. unfold ecdsa_GenerateKey; appends_solve. Qed.

#[export] Hint Resolve os_Create_appends file_Write_appends os_WriteFile_appends
  os_Chmod_appends os_MkdirAll_appends os_Exists_appends os_ReadFile_appends
  rsa_GenerateKey_appends ecdsa_GenerateKey_appends : appends.

Module AcmeFacts.
Import Acme.

Lemma loadUser_appends uf kf : Appends nocfg (loadUser uf kf).
Proof. unfold loadUser; appends_solve. Qed.
#[export] Hint Resolve loadUser_appends : appends.
Lemma loadOrCreateUser_appends d e : Appends nocfg (loadOrCreateUser d e).
Proof. unfold loadOrCreateUser; appends_solve. Qed.
Lemma saveUser_appends c u : Appends nocfg (saveUser c u).
Proof. unfold saveUser; appends_solve. Qed.
Lemma lego_NewClient_appends : Appends nocfg lego_NewClient.
Proof. unfold lego_NewClient; appends_solve. Qed.
Lemma lego_Register_appends : Appends nocfg lego_Register.
Proof. unfold lego_Register; appends_solve. Qed.
#[export] Hint Resolve loadOrCreateUser_appends saveUser_appends
  lego_NewClient_appends lego_Register_appends : appends.
Lemma NewClient_appends cfg : Appends nocfg (NewClient cfg).
Proof. unfold NewClient; appends_solve. Qed.
Lemma set_provider_appends : Appends nocfg set_provider.
Proof. unfold set_provider; appends_solve. Qed.
Lemma ObtainCertificate_appends c d : Appends nocfg (ObtainCertificate c d).
Proof. unfold ObtainCertificate; appends_solve. Qed.
Lemma SaveCertificate_appends c r d : Appends nocfg (SaveCertificate c r d).
Proof. unfold SaveCertificate; appends_solve. Qed.

End AcmeFacts.
#[export] Hint Resolve AcmeFacts.NewClient_appends AcmeFacts.set_provider_appends
  AcmeFacts.ObtainCertificate_appends AcmeFacts.SaveCertificate_appends : appends.

Module CertFacts.
Import Cert.

Lemma createCertDir_appends m : Appends nocfg (createCertDir m).
Proof. unfold createCertDir; appends_solve. Qed.
Lemma generatePrivateKey_appends m : Appends nocfg (generatePrivateKey m).
Proof. unfold generatePrivateKey; appends_solve. Qed.
Lemma createCSR_appends m k : Appends nocfg (createCSR m k).
Proof. unfold createCSR; appends_solve. Qed.
Lemma generateSelfSignedCert_appends m c : Appends nocfg (generateSelfSignedCert m c).
Proof. unfold generateSelfSignedCert; appends_solve. Qed.
#[export] Hint Resolve generateSelfSignedCert_appends : appends.
Lemma obtainWithACME_appends m ct : Appends nocfg (obtainWithACME m ct).
Proof.
  unfold obtainWithACME, Acme.SetHTTPChallenge, Acme.SetTLSChallenge;
  appends_solve.
Qed.
#[export] Hint Resolve obtainWithACME_appends : appends.
Lemma obtainCertificate_appends m c : Appends nocfg (obtainCertificate m c).
Proof.
  unfold obtainCertificate, obtainCertificateWebroot,
    obtainCertificateStandalone, obtainCertificateDNS; appends_solve.
Qed.
Lemma saveCertificate_appends m b : Appends nocfg (saveCertificate m b).
Proof. unfold saveCertificate; appends_solve. Qed.
Lemma GetCertInfo_appends m : Appends (fun _ => False) (GetCertInfo m).
Proof.
  unfold GetCertInfo, os_Exists, os_ReadFile; appends_solve.
Qed.

End CertFacts.

(** ** Programs that only read the state (and the clock) *)

Definition ReadsOnly {A} (m : M A) : Prop :=
  forall env s r s', m env s = (r, s') ->
    fs s' = fs s /\ trace s' = trace s /\ next_id s' = next_id s.

Lemma ReadsOnly_ret {A} (a : A) : ReadsOnly (ret a).
Proof. intros env s r s' H; inversion H; auto. Qed.
Lemma ReadsOnly_fail {A} e : ReadsOnly (@fail A e).
Proof. intros env s r s' H; inversion H; auto. Qed.
Lemma ReadsOnly_get_st : ReadsOnly get_st.
Proof. intros env s r s' H; inversion H; auto. Qed.
Lemma ReadsOnly_now : ReadsOnly now.
Proof. intros env s r s' H; inversion H; auto. Qed.
Lemma ReadsOnly_bind {A B} (m : M A) (k : A -> M B) :
  ReadsOnly m -> (forall a, ReadsOnly (k a)) -> ReadsOnly (bind m k).
Proof.
  intros Hm Hk env s r s' H; unfold bind in H.
  destruct (m env s) as [[a|e] s1] eqn:E.
  - destruct (Hm _ _ _ _ E) as (F1 & T1 & N1).
    destruct (Hk a _ _ _ _ H) as (F2 & T2 & N2); repeat split; congruence.
  - inversion H; subst; eapply Hm; eauto.
Qed.
Lemma ReadsOnly_wrap {A} ctx (m : M A) : ReadsOnly m -> ReadsOnly (wrap ctx m).
Proof.
  intros Hm env s r s' H; unfold wrap in H.
  destruct (m env s) as [[a|e] s1] eqn:E; inversion H; subst; eapply Hm; eauto.
Qed.

Lemma GetCertInfo_reads m : ReadsOnly (Cert.GetCertInfo m).
Proof.
  unfold Cert.GetCertInfo, os_Exists, os_ReadFile; cbv zeta.
  repeat first
    [ apply ReadsOnly_bind; [| intro]
    | apply ReadsOnly_wrap
    | match goal with
      | |- ReadsOnly (if ?b then _ else _) => destruct b
      | |- ReadsOnly (match ?x with _ => _ end) => destruct x
      end
    | apply ReadsOnly_ret | apply ReadsOnly_fail | apply ReadsOnly_get_st
    | apply ReadsOnly_now ].
Qed.

(** ** C3: renewal threshold *)

(** C3. [Renew] first reads the certificate status; if days-left is
    strictly greater than 30 it succeeds at once, with the file system and
    the trace of effects (no remote call, no write) exactly as before;
    otherwise (days-left <= 30, 30 included) it runs [Install]; a status
    read that fails is propagated. *)
Theorem Renew_threshold : forall (m : Cert.Manager) env s,
  match Cert.GetCertInfo m env s with
  | (Ok info, s1) =>
      Cert.Renew m env s =
        (if Z.gtb (Cert.DaysLeft info) 30 then (Ok tt, s1)
         else Cert.Install m env s1)
      /\ fs s1 = fs s /\ trace s1 = trace s
  | (Err e, s1) =>
      Cert.Renew m env s = (Err (EWrap "get certificate info failed" e), s1)
      /\ fs s1 = fs s /\ trace s1 = trace s
  end.
Proof.
  intros m env s.
  destruct (Cert.GetCertInfo m env s) as [[info|e] s1] eqn:E;
    destruct (GetCertInfo_reads m _ _ _ _ E) as (F & T & _);
    unfold Cert.Renew, bind, wrap; rewrite E; repeat split; auto.
  destruct (Z.gtb (Cert.DaysLeft info) 30); reflexivity.
Qed.

(** ** C4: days left and validity of an installed certificate *)

(** Case on an innermost [match] of [H] (its scrutinee holds no match). *)
Ltac dmatch H :=
  match type of H with
  | context [match ?x with _ => _ end] =>
      lazymatch x with
      | context [match _ with _ => _ end] => fail
      | _ => destruct x eqn:?
      end
  end.

Module Example4.
Import Cert.

(** A single-domain manager storing its certificates under /etc/autocert. *)
Definition m1 : Manager :=
  {| domains := ["example.com"]; primaryDomain := "example.com";
     email := runes "admin@example.com"; challengeType := ChallengeWebroot;
     webrootPath := ""; webServerType := WebServerNginx;
     certDir := "/etc/autocert"; keySize := 2048; configurator := false |}.

(** A world where nothing fails and the clock does not move. *)
Definition env_ok : Env :=
  {| e_fs_fail := fun _ => false; e_lego_ok := true; e_register_ok := true;
     e_challenge_ok := true; e_obtain := Some (90 * 24 * Hour);
     e_configure_ok := true; e_test_ok := true; e_reload_ok := true;
     e_tick := 0 |}.

(** The certificate file of [m1] holds a certificate expiring at [na]; the
    clock reads [t]. *)
Definition st_with_cert (na t : Z) : St :=
  {| fs := fs_update (fun _ => None) (getCertPath m1)
             {| f_perm := 420;
                f_data := BPem (BDer (SelfSigned "example.com" ["example.com"]
                                        0 na (RSAKey 7 2048))) |};
     trace := []; next_id := 8; clock := t |}.

End Example4.

(** ** float64 rounding: monotone, exact on representable values, odd *)

Section Float64_facts.
Local Open Scope Z_scope.

Lemma div_ne_bounds n q : 0 < q -> n / q <= div_ne n q <= n / q + 1.
Proof.
  intros Hq; unfold div_ne.
  destruct (2 * (n mod q) <? q); [lia|].
  destruct (q <? 2 * (n mod q)); [lia|].
  destruct (Z.even (n / q)); lia.
Qed.

Lemma div_cross_mono n1 q1 n2 q2 :
  0 < q1 -> 0 < q2 -> n1 * q2 <= n2 * q1 -> n1 / q1 <= n2 / q2.
Proof.
  intros H1 H2 H.
  apply Z.div_le_lower_bound; [exact H2|].
  pose proof (Z.mul_div_le n1 q1 H1).
  apply (Z.mul_le_mono_pos_l _ _ q1 H1). nia.
Qed.

Lemma div_ne_mono n1 q1 n2 q2 :
  0 < q1 -> 0 < q2 -> n1 * q2 <= n2 * q1 -> div_ne n1 q1 <= div_ne n2 q2.
Proof.
  intros H1 H2 H.
  pose proof (div_cross_mono _ _ _ _ H1 H2 H) as Hk.
  pose proof (div_ne_bounds n1 q1 H1); pose proof (div_ne_bounds n2 q2 H2).
  destruct (Z.eq_dec (n1 / q1) (n2 / q2)) as [E|E]; [|lia].
  pose proof (Z.div_mod n1 q1 ltac:(lia)) as D1.
  pose proof (Z.div_mod n2 q2 ltac:(lia)) as D2.
  pose proof (Z.mod_pos_bound n1 q1 H1); pose proof (Z.mod_pos_bound n2 q2 H2).
  unfold div_ne; rewrite <- E.
  set (k := n1 / q1) in *; set (r1 := n1 mod q1) in *; set (r2 := n2 mod q2) in *.
  assert (Hr : r1 * q2 <= r2 * q1) by (rewrite <- E in D2; nia).
  destruct (2 * r1 <? q1) eqn:A1; destruct (q1 <? 2 * r1) eqn:B1;
  destruct (2 * r2 <? q2) eqn:A2; destruct (q2 <? 2 * r2) eqn:B2;
  rewrite ?Z.ltb_lt, ?Z.ltb_ge in *; try lia;
  destruct (Z.even k); try lia; nia.
Qed.

Lemma div_ne_exact N q : 0 < q -> div_ne (N * q) q = N.
Proof.
  intros Hq; unfold div_ne.
  rewrite Z.div_mul, Z.mod_mul by lia.
  replace (2 * 0 <? q) with true by (symmetry; apply Z.ltb_lt; lia); reflexivity.
Qed.

Lemma floor_lt_pow f j :
  0 <= f -> Z.max 0 (Z.log2 f - 52) <= j -> f < 2 ^ (53 + j).
Proof.
  intros Hf Hj.
  destruct (Z.eq_dec f 0) as [->|Hn]; [apply Z.pow_pos_nonneg; lia|].
  destruct (Z.log2_spec f ltac:(lia)) as [_ Hu].
  eapply Z.lt_le_trans; [exact Hu|]. apply Z.pow_le_mono_r; lia.
Qed.

Lemma f64_round_pos_le n q j :
  0 <= n -> 0 < q -> j = Z.max 0 (Z.log2 (n / q) - 52) ->
  f64_round_pos n q <= 2 ^ 53 * 2 ^ j.
Proof.
  intros Hn Hq Hj; unfold f64_round_pos; rewrite <- Hj.
  assert (Pj : 0 < 2 ^ j) by (apply Z.pow_pos_nonneg; lia).
  assert (F : n / q < 2 ^ (53 + j))
    by (apply floor_lt_pow; [apply Z.div_pos; lia | lia]).
  rewrite Z.pow_add_r in F by lia.
  pose proof (div_ne_bounds n (q * 2 ^ j) ltac:(nia)).
  rewrite <- Z.div_div in H by lia.
  assert (n / q / 2 ^ j < 2 ^ 53) by (apply Z.div_lt_upper_bound; lia).
  nia.
Qed.

Lemma f64_round_pos_ge n q j :
  0 <= n -> 0 < q -> 0 < j -> j = Z.max 0 (Z.log2 (n / q) - 52) ->
  2 ^ 52 * 2 ^ j <= f64_round_pos n q.
Proof.
  intros Hn Hq Hj0 Hj; unfold f64_round_pos; rewrite <- Hj.
  assert (Pj : 0 < 2 ^ j) by (apply Z.pow_pos_nonneg; lia).
  assert (Hf : 0 < n / q).
  { destruct (Z.eq_dec (n / q) 0) as [E|E]; [rewrite E in Hj; simpl in Hj; lia|].
    pose proof (Z.div_pos n q Hn Hq); lia. }
  destruct (Z.log2_spec (n / q) Hf) as [Hl _].
  replace (Z.log2 (n / q)) with (52 + j) in Hl by lia.
  rewrite Z.pow_add_r in Hl by lia.
  pose proof (div_ne_bounds n (q * 2 ^ j) ltac:(nia)).
  rewrite <- Z.div_div in H by lia.
  assert (2 ^ 52 <= n / q / 2 ^ j) by (apply Z.div_le_lower_bound; lia).
  nia.
Qed.

Lemma f64_round_pos_mono n1 q1 n2 q2 :
  0 <= n1 -> 0 < q1 -> 0 < q2 -> n1 * q2 <= n2 * q1 ->
  f64_round_pos n1 q1 <= f64_round_pos n2 q2.
Proof.
  intros Hn1 H1 H2 H.
  assert (Hn2 : 0 <= n2) by nia.
  pose proof (div_cross_mono _ _ _ _ H1 H2 H) as Hf.
  pose proof (Z.div_pos n1 q1 Hn1 H1).
  remember (Z.max 0 (Z.log2 (n1 / q1) - 52)) as j1 eqn:J1.
  remember (Z.max 0 (Z.log2 (n2 / q2) - 52)) as j2 eqn:J2.
  assert (Hj : j1 <= j2).
  { subst j1 j2; pose proof (Z.log2_le_mono _ _ Hf); lia. }
  destruct (Z.eq_dec j1 j2) as [E|E].
  - unfold f64_round_pos; rewrite <- J1, <- J2, <- E.
    assert (Pj : 0 < 2 ^ j1) by (apply Z.pow_pos_nonneg; lia).
    apply Z.mul_le_mono_nonneg_r; [lia|].
    apply div_ne_mono; nia.
  - pose proof (f64_round_pos_le n1 q1 j1 Hn1 H1 J1).
    pose proof (f64_round_pos_ge n2 q2 j2 Hn2 H2 ltac:(lia) J2).
    assert (2 ^ 53 * 2 ^ j1 <= 2 ^ 52 * 2 ^ j2); [|lia].
    rewrite <- !Z.pow_add_r by lia; apply Z.pow_le_mono_r; lia.
Qed.

Lemma f64_round_pos_nonneg n q : 0 <= n -> 0 < q -> 0 <= f64_round_pos n q.
Proof.
  intros Hn Hq; unfold f64_round_pos.
  set (j := Z.max 0 _).
  assert (0 < 2 ^ j) by (apply Z.pow_pos_nonneg; lia).
  pose proof (div_ne_bounds n (q * 2 ^ j) ltac:(nia)).
  pose proof (Z.div_pos n (q * 2 ^ j) Hn ltac:(nia)). nia.
Qed.

Lemma f64_round_mono n1 q1 n2 q2 :
  0 < q1 -> 0 < q2 -> n1 * q2 <= n2 * q1 ->
  f64_round n1 q1 <= f64_round n2 q2.
Proof.
  intros H1 H2 H; unfold f64_round.
  destruct (n1 <? 0) eqn:A; destruct (n2 <? 0) eqn:B;
    rewrite ?Z.ltb_lt, ?Z.ltb_ge in *.
  - apply Z.opp_le_mono; rewrite !Z.opp_involutive.
    apply f64_round_pos_mono; nia.
  - pose proof (f64_round_pos_nonneg (- n1) q1 ltac:(lia) H1).
    pose proof (f64_round_pos_nonneg n2 q2 B H2). lia.
  - nia.
  - apply f64_round_pos_mono; nia.
Qed.

Lemma f64_round_pos_0 q : 0 < q -> f64_round_pos 0 q = 0.
Proof.
  intros Hq; unfold f64_round_pos; rewrite Zdiv_0_l.
  set (j := Z.max 0 _).
  assert (0 < 2 ^ j) by (apply Z.pow_pos_nonneg; lia).
  unfold div_ne; rewrite Zdiv_0_l, Zmod_0_l.
  replace (2 * 0 <? q * 2 ^ j) with true by (symmetry; apply Z.ltb_lt; nia).
  ring.
Qed.

Lemma f64_round_pos_exact M j q :
  0 <= M < 2 ^ 53 -> 0 <= j -> 0 < q -> f64_round_pos (M * 2 ^ j * q) q = M * 2 ^ j.
Proof.
  intros HM Hj Hq; unfold f64_round_pos.
  rewrite Z.div_mul by lia.
  destruct (Z.eq_dec M 0) as [->|HM0].
  { rewrite !Z.mul_0_l; fold (f64_round_pos 0 q); apply f64_round_pos_0; exact Hq. }
  rewrite Z.log2_mul_pow2 by lia.
  assert (Hl : Z.log2 M < 53) by (apply Z.log2_lt_pow2; lia).
  set (j' := Z.max 0 (j + Z.log2 M - 52)).
  assert (Hj' : 0 <= j' <= j) by (pose proof (Z.log2_nonneg M); unfold j'; lia).
  assert (E : 2 ^ j = 2 ^ (j - j') * 2 ^ j')
    by (rewrite <- Z.pow_add_r by lia; f_equal; lia).
  replace (M * 2 ^ j * q) with ((M * 2 ^ (j - j')) * (q * 2 ^ j'))
    by (rewrite E; ring).
  rewrite div_ne_exact by (pose proof (Z.pow_pos_nonneg 2 j'); nia).
  rewrite E; ring.
Qed.

Lemma f64_round_exact M j q :
  Z.abs M < 2 ^ 53 -> 0 <= j -> 0 < q -> f64_round (M * 2 ^ j * q) q = M * 2 ^ j.
Proof.
  intros HM Hj Hq; unfold f64_round.
  assert (P : 0 < 2 ^ j) by (apply Z.pow_pos_nonneg; lia).
  destruct (M * 2 ^ j * q <? 0) eqn:A; rewrite ?Z.ltb_lt, ?Z.ltb_ge in A.
  - replace (- (M * 2 ^ j * q)) with ((- M) * 2 ^ j * q) by ring.
    rewrite f64_round_pos_exact by lia; ring.
  - apply f64_round_pos_exact; nia.
Qed.



Lemma f64_round_opp n q : 0 < q -> f64_round (- n) q = - f64_round n q.
Proof.
  intros Hq; unfold f64_round.
  destruct (Z.lt_trichotomy n 0) as [A|[A|A]].
  - replace (- n <? 0) with false by (symmetry; apply Z.ltb_ge; lia).
    replace (n <? 0) with true by (symmetry; apply Z.ltb_lt; lia). lia.
  - subst; simpl; rewrite f64_round_pos_0 by exact Hq; reflexivity.
  - replace (- n <? 0) with true by (symmetry; apply Z.ltb_lt; lia).
    replace (n <? 0) with false by (symmetry; apply Z.ltb_ge; lia).
    rewrite Z.opp_involutive; reflexivity.
Qed.

Lemma f64_unit_P : f64_unit = 134217728 * 2 ^ 1047.
Proof.
  unfold f64_unit; replace 134217728 with (2 ^ 27) by reflexivity.
  rewrite <- Z.pow_add_r by lia; reflexivity.
Qed.

Lemma f64_of_int_exact i : Z.abs i < 2 ^ 53 -> f64_of_int i = i * f64_unit.
Proof.
  intros H; unfold f64_of_int, f64_unit.
  rewrite <- (Z.mul_1_r (i * 2 ^ 1074)) at 1.
  apply f64_round_exact; lia.
Qed.

Lemma f64_round_mono_q n1 n2 q : 0 < q -> n1 <= n2 -> f64_round n1 q <= f64_round n2 q.
Proof. intros; apply f64_round_mono; nia. Qed.

Lemma f64_round_0 q : 0 < q -> f64_round 0 q = 0.
Proof. intros; unfold f64_round; simpl; apply f64_round_pos_0; lia. Qed.

End Float64_facts.

(** ** [int(time.Until(na).Hours() / 24)]

    [days_of d] is the number of days Go reports for a duration [d]. *)

Local Abbreviation days_of d := (f64_to_int (f64_div (Hours d) (f64_of_int 24))).

Section Days_left.
Local Open Scope Z_scope.

Lemma days_left_nonneg d :
  0 <= d <= 2 ^ 63 ->
  d / (24 * Hour) <= days_of d <= d / (24 * Hour) + 1 /\
  (d mod (24 * Hour) < 24 * Hour - 1000000 -> days_of d = d / (24 * Hour)).
Proof.
  intros Hd.
  unfold Hours.
  rewrite Z.quot_div_nonneg, Z.rem_mod_nonneg by (unfold Hour; lia).
  pose proof (Z.div_mod d Hour ltac:(unfold Hour; lia)) as Dh.
  pose proof (Z.mod_pos_bound d Hour ltac:(unfold Hour; lia)) as Bh.
  pose proof (Z.div_mod d (24 * Hour) ltac:(unfold Hour; lia)) as Dk.
  pose proof (Z.mod_pos_bound d (24 * Hour) ltac:(unfold Hour; lia)) as Bk.
  set (h := d / Hour) in *; set (ns := d mod Hour) in *.
  set (k := d / (24 * Hour)) in *; set (r := d mod (24 * Hour)) in *.
  unfold Hour in *.
  assert (Hhk : 24 * k <= h <= 24 * k + 23) by lia.
  assert (Hk : 0 <= k <= 106751) by lia.
  rewrite !f64_of_int_exact by lia.
  unfold f64_add, f64_div, f64_to_int.
  change (60 * 60 * 1000000000) with 3600000000000.
  rewrite f64_unit_P.
  pose proof f64_round_exact as EX.
  pose proof f64_round_mono as MO.
  pose proof f64_round_mono_q as MQ.
  assert (EXP : forall M q, Z.abs M < 2 ^ 53 -> 0 < q ->
            f64_round (M * 2 ^ 1047 * q) q = M * 2 ^ 1047)
    by (intros; apply EX; lia).
  clear EX.
  set (P := 2 ^ 1047) in *.
  assert (HP : 0 < P) by (unfold P; lia).
  clearbody P.
  set (U := 134217728 * P) in *.
  assert (HU : 0 < U) by (unfold U; lia).
  replace (3600000000000 * U <? 0) with false by (symmetry; apply Z.ltb_ge; lia).
  replace (24 * U <? 0) with false by (symmetry; apply Z.ltb_ge; lia).
  set (fr := f64_round (ns * U * U) (3600000000000 * U)).
  assert (Fr0 : 0 <= fr).
  { rewrite <- (f64_round_0 1) by lia.
    apply MO; lia. }
  assert (Fr1 : fr <= U).
  { unfold U at 1; rewrite <- (EXP 134217728 1) by lia.
    apply MO; try lia.
    pose proof (Z.mul_le_mono_nonneg_r ns 3600000000000 (U * U) ltac:(nia) ltac:(lia)).
    unfold U in *; lia. }
  set (hr := f64_round (h * U + fr) 1).
  assert (Hr0 : h * U <= hr).
  { replace (h * U) with (f64_round ((h * 134217728) * P * 1) 1) at 1
      by (rewrite EXP by lia; unfold U; ring).
    apply MQ; unfold U in *; lia. }
  assert (Hr1 : hr <= (h + 1) * U).
  { replace ((h + 1) * U) with (f64_round (((h + 1) * 134217728) * P * 1) 1)
      by (rewrite EXP by lia; unfold U; ring).
    apply MQ; unfold U in *; lia. }
  set (qv := f64_round (hr * U) (24 * U)).
  assert (Q0 : k * U <= qv).
  { replace (k * U) with (f64_round ((k * 134217728) * P * (24 * U)) (24 * U))
      by (rewrite EXP by lia; unfold U; ring).
    apply MQ; [lia|].
    pose proof (Z.mul_le_mono_nonneg_r (24 * k) h U ltac:(lia) ltac:(lia)).
    pose proof (Z.mul_le_mono_nonneg_r (24 * k * U) hr U ltac:(lia) ltac:(lia)).
    unfold U in *; lia. }
  assert (Q1 : qv <= (k + 1) * U).
  { replace ((k + 1) * U) with (f64_round (((k + 1) * 134217728) * P * (24 * U)) (24 * U))
      by (rewrite EXP by lia; unfold U; ring).
    apply MQ; [lia|].
    pose proof (Z.mul_le_mono_nonneg_r (h + 1) (24 * k + 24) U ltac:(lia) ltac:(lia)).
    pose proof (Z.mul_le_mono_nonneg_r hr ((24 * k + 24) * U) U ltac:(lia) ltac:(lia)).
    unfold U in *; lia. }
  assert (Qn : 0 <= qv) by (pose proof (Z.mul_nonneg_nonneg k U ltac:(lia) ltac:(lia)); lia).
  rewrite Z.quot_div_nonneg by lia.
  split.
  - split.
    + apply Z.div_le_lower_bound; lia.
    + apply Z.div_le_upper_bound; lia.
  - intros Hr.
    assert (Q2 : qv < (k + 1) * U).
    { destruct (Z.eq_dec h (24 * k + 23)) as [Eh|Eh].
      - assert (Hns : ns < 3600000000000 - 1000000) by lia.
        assert (Fr2 : fr <= (4194303 * 32) * P).
        { rewrite <- (EXP (4194303 * 32) 1) by lia.
          apply MO; try lia.
          pose proof (Z.mul_le_mono_nonneg_r (ns * 4194304) (4194303 * 3600000000000) (U * P)
                        ltac:(nia) ltac:(lia)).
          unfold U in *; lia. }
        assert (Hr2 : hr <= ((24 * k + 24) * 134217728 - 32) * P).
        { rewrite <- (EXP ((24 * k + 24) * 134217728 - 32) 1) by lia.
          apply MQ; [lia|]. rewrite Eh in *; unfold U in *; lia. }
        assert (Q3 : qv <= ((k + 1) * 134217728 - 1) * P).
        { rewrite <- (EXP ((k + 1) * 134217728 - 1) (24 * U)) by lia.
          apply MQ; [lia|].
          pose proof (Z.mul_le_mono_nonneg_r hr (((k + 1) * 134217728 - 1) * P * 24) U
                        ltac:(lia) ltac:(lia)).
          unfold U in *; lia. }
        unfold U in *; lia.
      - assert (Q3 : qv <= ((32 * k + 31) * 4194304) * P).
        { rewrite <- (EXP ((32 * k + 31) * 4194304) (24 * U)) by lia.
          apply MQ; [lia|].
          pose proof (Z.mul_le_mono_nonneg_r (h + 1) (24 * k + 23) U ltac:(lia) ltac:(lia)).
          pose proof (Z.mul_le_mono_nonneg_r hr ((32 * k + 31) * 4194304 * P * 24) U
                        ltac:(lia) ltac:(unfold U in *; lia)).
          unfold U in *; lia. }
        unfold U in *; lia. }
    assert (k <= qv / U) by (apply Z.div_le_lower_bound; lia).
    assert (qv / U < k + 1) by (apply Z.div_lt_upper_bound; lia).
    lia.
Qed.

Lemma f64_unit_pos : 0 < f64_unit.
Proof. unfold f64_unit; apply Z.pow_pos_nonneg; lia. Qed.

Lemma days_left_opp d : days_of (- d) = - days_of d.
Proof.
  pose proof f64_unit_pos as HU.
  unfold Hours.
  rewrite Z.quot_opp_l, Z.rem_opp_l by (unfold Hour; lia).
  rewrite (f64_of_int_exact 24), (f64_of_int_exact (60 * 60 * 1000000000)) by lia.
  unfold f64_div, f64_add, f64_of_int, f64_to_int.
  replace (60 * 60 * 1000000000 * f64_unit <? 0) with false
    by (symmetry; apply Z.ltb_ge; lia).
  replace (24 * f64_unit <? 0) with false by (symmetry; apply Z.ltb_ge; lia).
  rewrite !Z.mul_opp_l, !f64_round_opp by lia.
  rewrite !Z.mul_opp_l, !f64_round_opp by lia.
  rewrite <- Z.opp_add_distr, f64_round_opp by lia.
  rewrite Z.mul_opp_l, f64_round_opp by lia.
  rewrite Z.quot_opp_l by lia. reflexivity.
Qed.

Lemma trunc_days_cases y d :
  0 <= d ->
  d / (24 * Hour) <= y <= d / (24 * Hour) + 1 ->
  (d mod (24 * Hour) < 24 * Hour - 1000000 -> y = d / (24 * Hour)) ->
  (y = Z.quot d (24 * Hour) \/ y = Z.quot d (24 * Hour) + Z.sgn d) /\
  (Z.abs (Z.rem d (24 * Hour)) < 24 * Hour - 1000000 -> y = Z.quot d (24 * Hour)).
Proof.
  intros Hp B M.
  assert (HD : 0 < 24 * Hour) by (unfold Hour; lia).
  rewrite Z.quot_div_nonneg, Z.rem_mod_nonneg by lia.
  pose proof (Z.mod_pos_bound d (24 * Hour) HD).
  rewrite Z.abs_eq by lia.
  split; [|exact M].
  destruct (Z.lt_ge_cases (d mod (24 * Hour)) (24 * Hour - 1000000)) as [L|L].
  - left; apply M, L.
  - assert (0 < d).
    { destruct (Z.eq_dec d 0) as [->|]; [|lia].
      rewrite Zmod_0_l in L; unfold Hour in L; lia. }
    rewrite Z.sgn_pos by lia. lia.
Qed.

Lemma days_left_spec d :
  - 2 ^ 63 <= d <= 2 ^ 63 ->
  (days_of d = Z.quot d (24 * Hour) \/
   days_of d = Z.quot d (24 * Hour) + Z.sgn d) /\
  (Z.abs (Z.rem d (24 * Hour)) < 24 * Hour - 1000000 ->
   days_of d = Z.quot d (24 * Hour)).
Proof.
  intros Hd.
  destruct (Z.le_gt_cases 0 d) as [Hp|Hn].
  - destruct (days_left_nonneg d ltac:(lia)) as [B M].
    revert B M; generalize (days_of d); intros y B M.
    apply trunc_days_cases; assumption.
  - set (e := - d) in Hn.
    assert (Ed : d = - e) by (unfold e; lia).
    clearbody e; subst d.
    destruct (days_left_nonneg e ltac:(lia)) as [B M].
    pose proof (days_left_opp e) as O.
    revert B M O; generalize (days_of (- e)) (days_of e); intros y z B M O.
    destruct (trunc_days_cases z e ltac:(lia) B M) as [C1 C2].
    rewrite Z.quot_opp_l, Z.rem_opp_l, Z.abs_opp, Z.sgn_opp by (unfold Hour; lia).
    split; [lia|]. intros L; rewrite O, (C2 L); reflexivity.
Qed.

End Days_left.

(** The float64 model against the Standard Library's IEEE 754 reference
    ([SpecFloat], binary64: 53 bits of precision, [emax = 1024]): both
    compute the same [Hours() / 24] on sample durations, among them the
    bounds of [Duration] and durations a few nanoseconds from a day
    boundary. *)
Module F64Check.

Definition sf_of_int (i : Z) : SpecFloat.spec_float :=
  SpecFloat.binary_normalize 53 1024 i 0 false.

Definition sf_Hours (d : Z) : SpecFloat.spec_float :=
  SpecFloat.SFadd 53 1024 (sf_of_int (Z.quot d Hour))
    (SpecFloat.SFdiv 53 1024 (sf_of_int (Z.rem d Hour)) (sf_of_int (60 * 60 * 1000000000))).

(** A finite [spec_float] in units of 2^-1074. *)
Definition sf_units (x : SpecFloat.spec_float) : option Z :=
  match x with
  | SpecFloat.S754_zero _ => Some 0
  | SpecFloat.S754_finite sg m e =>
      Some ((if sg then Z.opp else id) (Zpos m * 2 ^ (e + 1074)))
  | _ => None
  end.

Definition agrees (d : Z) : bool :=
  match sf_units (SpecFloat.SFdiv 53 1024 (sf_Hours d) (sf_of_int 24)) with
  | Some x => Z.eqb x (f64_div (Hours d) (f64_of_int 24))
  | None => false
  end.

Lemma agrees_samples :
  forallb agrees
    [0; 1; - 12 * Hour; 171 * 24 * Hour - 1; 170 * 24 * Hour + 1;
     - (24 * Hour - 1000000); maxDuration; minDuration]
  = true.
Proof. vm_compute; reflexivity. Qed.

End F64Check.

Lemma GetCertInfo_ok_inv : forall m env s info s1,
  Cert.GetCertInfo m env s = (Ok info, s1) ->
  exists c,
    Cert.ExpiryDate info = NotAfter c /\
    Cert.DaysLeft info = days_of (time_Sub (NotAfter c) (clock s)) /\
    Cert.IsValid info = Z.ltb (clock s + e_tick env) (NotAfter c).
Proof.
  intros m env s info s1 H.
  unfold Cert.GetCertInfo, os_Exists, os_ReadFile, wrap, bind, get_st, ret,
    now, fail in H; cbv beta iota zeta in H.
  repeat (dmatch H; try discriminate).
  all: inversion H; subst; eexists; simpl; repeat split; reflexivity.
Qed.

Lemma time_Sub_range t u : - 2 ^ 63 <= time_Sub t u <= 2 ^ 63.
Proof. unfold time_Sub, minDuration, maxDuration; lia. Qed.

(** C4 (counterexample). Days left is not floor(hours / 24): a certificate
    that expired 12 hours ago reports 0 days, not -1; one that expires in
    171 days less a nanosecond reports 171 days, not 170 (the float64 sum
    in [Hours()] rounds 4103 + (1 - 1/3.6e12) up to 4104). *)
Lemma GetCertInfo_days_not_floor :
  (exists info s1,
    Cert.GetCertInfo Example4.m1 Example4.env_ok
      (Example4.st_with_cert 0 (12 * Hour)) = (Ok info, s1) /\
    Cert.DaysLeft info = 0 /\
    Cert.DaysLeft info <> Z.div (Cert.ExpiryDate info - 12 * Hour) (24 * Hour)) /\
  (exists info s1,
    Cert.GetCertInfo Example4.m1 Example4.env_ok
      (Example4.st_with_cert (171 * 24 * Hour) 1) = (Ok info, s1) /\
    Cert.DaysLeft info = 171 /\
    Cert.DaysLeft info <> Z.div (Cert.ExpiryDate info - 1) (24 * Hour)).
Proof.
  split; eexists; eexists; split; try (vm_compute; reflexivity);
    vm_compute; split; (reflexivity || discriminate).
Qed.

(** C4 (amended). For a certificate file that parses, let [d] be the time
    until NotAfter ([time.Until], saturated to the range of [Duration]).
    Days-left is [int(Hours(d) / 24)] computed in float64; it is
    [d / 24h] truncated toward zero (not the floor: an expired certificate
    rounds toward zero), or one more in magnitude when [d] is within a
    millisecond short of a whole number of days, where float64 rounding
    reaches the next day; at least one millisecond away from that, it is
    exactly the truncated quotient.  The validity flag is true exactly
    when the (second) clock reading is strictly before NotAfter. *)
Theorem GetCertInfo_days_trunc : forall m env s info s1,
  Cert.GetCertInfo m env s = (Ok info, s1) ->
  let d := time_Sub (Cert.ExpiryDate info) (clock s) in
  Cert.DaysLeft info = f64_to_int (f64_div (Hours d) (f64_of_int 24)) /\
  (Cert.DaysLeft info = Z.quot d (24 * Hour) \/
   Cert.DaysLeft info = Z.quot d (24 * Hour) + Z.sgn d) /\
  (Z.abs (Z.rem d (24 * Hour)) < 24 * Hour - 1000000 ->
   Cert.DaysLeft info = Z.quot d (24 * Hour)) /\
  Cert.IsValid info = Z.ltb (clock s + e_tick env) (Cert.ExpiryDate info).
Proof.
  intros m env s info s1 H d.
  destruct (GetCertInfo_ok_inv m env s info s1 H) as (c & E & D & V).
  subst d; rewrite E, D, V.
  destruct (days_left_spec (time_Sub (NotAfter c) (clock s)) (time_Sub_range _ _))
    as [A B].
  repeat split; assumption.
Qed.

Lemma GetCertInfo_days_trunc_witness :
  exists info s1,
    Cert.GetCertInfo Example4.m1 Example4.env_ok
      (Example4.st_with_cert (40 * 24 * Hour) (5 * Hour)) = (Ok info, s1) /\
    (let d := time_Sub (Cert.ExpiryDate info) (5 * Hour) in
     Cert.DaysLeft info = f64_to_int (f64_div (Hours d) (f64_of_int 24)) /\
     (Cert.DaysLeft info = Z.quot d (24 * Hour) \/
      Cert.DaysLeft info = Z.quot d (24 * Hour) + Z.sgn d) /\
     (Z.abs (Z.rem d (24 * Hour)) < 24 * Hour - 1000000 ->
      Cert.DaysLeft info = Z.quot d (24 * Hour)) /\
     Cert.IsValid info = Z.ltb (5 * Hour + 0) (Cert.ExpiryDate info)).
Proof.
  eexists; eexists; split; [vm_compute; reflexivity |].
  eapply (GetCertInfo_days_trunc Example4.m1 Example4.env_ok
           (Example4.st_with_cert (40 * 24 * Hour) (5 * Hour))).
  vm_compute; reflexivity.
Defined.

(** ** C9 and C10: ACME accounts *)

Module Example10.
Import Acme.

Definition cfg_for (e : list rune) : ClientConfig :=
  {| cfg_Email := e; cfg_ConfigDir := "/etc/autocert"; cfg_Staging := false;
     cfg_Webroot := "" |}.

Definition env_ok : Env := Example4.env_ok.

Definition st0 : St :=
  {| fs := fun _ => None; trace := []; next_id := 0; clock := 0 |}.

(** A world where registration succeeds but account.json cannot be
    written. *)
Definition env_save_fails : Env :=
  {| e_fs_fail := fun p => string_eqb p
                     (userFile "/etc/autocert" (runes "admin@example.com"));
     e_lego_ok := true; e_register_ok := true; e_challenge_ok := true;
     e_obtain := None; e_configure_ok := true; e_test_ok := true;
     e_reload_ok := true; e_tick := 0 |}.

End Example10.

Module Example7.
Import Cert.

(** [Example4.m1] with a bound nginx configurator. *)
Definition m7 : Manager :=
  {| domains := ["example.com"]; primaryDomain := "example.com";
     email := runes "admin@example.com"; challengeType := ChallengeWebroot;
     webrootPath := ""; webServerType := WebServerNginx;
     certDir := "/etc/autocert"; keySize := 2048; configurator := true |}.

(** Everything succeeds except the configuration test. *)
Definition env_test_fails : Env :=
  {| e_fs_fail := fun _ => false; e_lego_ok := true; e_register_ok := true;
     e_challenge_ok := true; e_obtain := Some (90 * 24 * Hour)%Z;
     e_configure_ok := true; e_test_ok := false; e_reload_ok := true;
     e_tick := 0 |}.
End Example7.

Module Example1.

(** Everything succeeds locally, the ACME directory is unreachable, and
    each clock reading advances the clock by one. *)
Definition env_lego_down : Env :=
  {| e_fs_fail := fun _ => false; e_lego_ok := false; e_register_ok := true;
     e_challenge_ok := true; e_obtain := Some (90 * 24 * Hour)%Z;
     e_configure_ok := true; e_test_ok := true; e_reload_ok := true;
     e_tick := 1 |}.
End Example1.

(** C10. [sanitizeEmail] only produces runes of [a-zA-Z0-9._-], but two
    different addresses can give the same key: [user@host.com] and
    [user_host.com] share the account directory, and a client built for the
    second after the first registered loads the first one's account key. *)
Theorem sanitizeEmail_not_injective :
  (forall e, Forall (fun c => Acme.sanitize_keeps c = true) (Acme.sanitizeEmail e)) /\
  exists e1 e2, e1 <> e2 /\
    Acme.sanitizeEmail e1 = Acme.sanitizeEmail e2 /\
    Acme.userDir "/etc/autocert" e1 = Acme.userDir "/etc/autocert" e2 /\
    exists c1 s1 c2 s2,
      Acme.NewClient (Example10.cfg_for e1) Example10.env_ok Example10.st0
        = (Ok c1, s1) /\
      Acme.NewClient (Example10.cfg_for e2) Example10.env_ok s1 = (Ok c2, s2) /\
      Acme.ukey (Acme.user c1) = Acme.ukey (Acme.user c2).
Proof.
  split.
  - induction e as [|c e IH]; simpl; constructor; auto.
    destruct (Acme.sanitize_keeps c) eqn:K; auto.
  - exists (runes "user@host.com"), (runes "user_host.com").
    split; [discriminate |].
    split; [reflexivity |].
    split; [reflexivity |].
    do 4 eexists; split; [vm_compute; reflexivity |].
    split; [vm_compute; reflexivity | reflexivity].
Qed.

(** C9. Once the account is loaded and the CA reached: an account that
    already has a registration reference is not registered again (the
    only remote call is the directory fetch); an account without one is
    registered, and when registration succeeds the client is returned with
    that registration whatever happens when it is saved to disk. *)
Theorem NewClient_registration : forall cfg env s u s1,
  Acme.cfg_Email cfg <> [] ->
  Acme.loadOrCreateUser (Acme.cfg_ConfigDir cfg) (Acme.cfg_Email cfg) env s
    = (Ok u, s1) ->
  e_lego_ok env = true ->
  match Acme.Registration u with
  | Some _ =>
      exists s2,
        Acme.NewClient cfg env s =
          (Ok {| Acme.user := u; Acme.configDir := Acme.cfg_ConfigDir cfg;
                 Acme.staging := Acme.cfg_Staging cfg;
                 Acme.webroot := Acme.cfg_Webroot cfg |}, s2) /\
        trace s2 = trace s1 ++ [ERemote RDirectory true]
  | None =>
      e_register_ok env = true ->
      exists reg s2 l,
        Acme.NewClient cfg env s =
          (Ok {| Acme.user := {| Acme.Email := Acme.Email u;
                                 Acme.Registration := Some reg;
                                 Acme.ukey := Acme.ukey u |};
                 Acme.configDir := Acme.cfg_ConfigDir cfg;
                 Acme.staging := Acme.cfg_Staging cfg;
                 Acme.webroot := Acme.cfg_Webroot cfg |}, s2) /\
        trace s2 = trace s1 ++ [ERemote RDirectory true;
                                ERemote RRegister true] ++ l
  end.
Proof.
  intros [em dir stg wr] env s u s1 Hem Hload Hlego; simpl in *.
  destruct em as [|r rs]; [congruence |].
  unfold Acme.NewClient, Acme.lego_NewClient, Acme.lego_Register;
    unfold bind, wrap, ask, emit, ret, fail, fresh, catch; simpl.
  rewrite Hload; simpl; rewrite Hlego; simpl.
  destruct (Acme.Registration u) as [reg0|] eqn:R.
  - eexists; simpl; split; [reflexivity | reflexivity].
  - intros Hreg; simpl; rewrite Hreg; simpl.
    match goal with
    | |- context [Acme.saveUser ?c ?uu ?e ?st] =>
        destruct (Acme.saveUser c uu e st) as [r3 s3] eqn:E3;
        destruct (AcmeFacts.saveUser_appends c uu e st r3 s3 E3) as (l & T & _)
    end.
    exists (next_id s1), s3, l; split; [reflexivity |].
    rewrite T; simpl; rewrite <- !app_assoc; reflexivity.
Qed.

Lemma NewClient_registration_witness :
  exists u s1,
    Acme.loadOrCreateUser "/etc/autocert" (runes "admin@example.com")
      Example10.env_save_fails Example10.st0 = (Ok u, s1) /\
    match Acme.Registration u with
    | Some _ =>
        exists s2,
          Acme.NewClient (Example10.cfg_for (runes "admin@example.com"))
            Example10.env_save_fails Example10.st0 =
            (Ok {| Acme.user := u; Acme.configDir := "/etc/autocert";
                   Acme.staging := false; Acme.webroot := "" |}, s2) /\
          trace s2 = trace s1 ++ [ERemote RDirectory true]
    | None =>
        e_register_ok Example10.env_save_fails = true ->
        exists reg s2 l,
          Acme.NewClient (Example10.cfg_for (runes "admin@example.com"))
            Example10.env_save_fails Example10.st0 =
            (Ok {| Acme.user := {| Acme.Email := Acme.Email u;
                                   Acme.Registration := Some reg;
                                   Acme.ukey := Acme.ukey u |};
                   Acme.configDir := "/etc/autocert";
                   Acme.staging := false; Acme.webroot := "" |}, s2) /\
          trace s2 = trace s1 ++ [ERemote RDirectory true;
                                  ERemote RRegister true] ++ l
    end.
Proof.
  eexists; eexists; split; [vm_compute; reflexivity |].
  exact (NewClient_registration
           (Example10.cfg_for (runes "admin@example.com"))
           Example10.env_save_fails Example10.st0 _ _
           ltac:(discriminate) ltac:(vm_compute; reflexivity) eq_refl).
Defined.

(** ** C2 and C5: challenge selection on the install path *)

Lemma buildManager_challenge : forall fl dir ds m,
  Cmd.buildManager fl dir ds = Some m ->
  Cert.challengeType m =
    (if Cmd.fl_dns fl || existsb (fun d => HasPrefix d "*.") ds
     then Cert.ChallengeDNS
     else if Cmd.fl_standalone fl then Cert.ChallengeStandalone
     else Cert.ChallengeWebroot).
Proof.
  intros fl dir ds m H; unfold Cmd.buildManager in H.
  destruct ds as [|d0 ds']; [discriminate |]; simpl in H.
  injection H as <-.
  unfold Cert.HasWildcard; simpl.
  destruct (Cmd.fl_dns fl), (HasPrefix d0 "*."), (existsb _ ds'),
    (Cmd.fl_standalone fl), (string_eqb (Cmd.fl_webroot fl) ""),
    (Cmd.fl_nginx fl), (Cmd.fl_apache fl), (Cmd.fl_iis fl); reflexivity.
Qed.

(** C2. A manager holding a wildcard domain whose challenge method is not
    DNS makes [Install] fail with the wildcard-requires-DNS error and leaves
    the state untouched (no directory, no key, no remote call, nothing in
    the trace).  On the validated install path the DNS method is never
    chosen silently: whenever the manager built after [validateInstallFlags]
    passes uses DNS, [--dns] was given; and a wildcard request without
    [--dns] makes [runInstall] fail with the state untouched. *)
Theorem Install_wildcard_requires_dns : forall m env s,
  Cert.HasWildcard m = true ->
  Cert.challengeType m <> Cert.ChallengeDNS ->
  Cert.Install m env s = (Err (EMsg Cert.msg_wildcard), s) /\
  (forall fl dir ds m',
     Cmd.validateInstallFlags fl ds = Ok tt ->
     Cmd.buildManager fl dir ds = Some m' ->
     Cert.challengeType m' = Cert.ChallengeDNS -> Cmd.fl_dns fl = true) /\
  (forall fl dir ds,
     Cmd.parseDomains fl = Ok ds ->
     existsb (fun d => HasPrefix d "*.") ds = true -> Cmd.fl_dns fl = false ->
     exists e, Cmd.runInstall fl dir env s = (Err e, s)).
Proof.
  intros m env s Hw Hc; split; [| split].
  - unfold Cert.Install; rewrite Hw.
    destruct (Cert.challengeType m); [reflexivity | reflexivity | congruence].
  - intros fl dir ds m' Hv Hb Hdns.
    rewrite (buildManager_challenge _ _ _ _ Hb) in Hdns.
    destruct (Cmd.fl_dns fl) eqn:D; [reflexivity |].
    unfold Cmd.validateInstallFlags in Hv; rewrite D in Hv.
    destruct (existsb (fun d => HasPrefix d "*.") ds) eqn:W.
    + destruct (negb (Cmd.fl_nginx fl) && negb (Cmd.fl_apache fl)
                && negb (Cmd.fl_iis fl)); [discriminate |].
      destruct (_ >? 1)%Z; discriminate.
    + simpl in Hdns; destruct (Cmd.fl_standalone fl); discriminate.
  - intros fl dir ds Hp Hw' Hd.
    unfold Cmd.runInstall; rewrite Hp.
    unfold Cmd.validateInstallFlags; rewrite Hw', Hd; simpl.
    destruct (negb (Cmd.fl_nginx fl) && negb (Cmd.fl_apache fl)
              && negb (Cmd.fl_iis fl)); [eexists; reflexivity |].
    destruct (_ >? 1)%Z; eexists; reflexivity.
Qed.

Module Example2.
Import Cert.

Definition m_wild : Manager :=
  {| domains := ["*.example.com"]; primaryDomain := "*.example.com";
     email := runes "admin@example.com"; challengeType := ChallengeWebroot;
     webrootPath := ""; webServerType := WebServerNginx;
     certDir := "/etc/autocert"; keySize := 2048; configurator := true |}.

End Example2.

Lemma Install_wildcard_requires_dns_witness :
  Cert.Install Example2.m_wild Example4.env_ok Example10.st0 =
    (Err (EMsg Cert.msg_wildcard), Example10.st0).
Proof.
  apply (Install_wildcard_requires_dns Example2.m_wild Example4.env_ok
           Example10.st0); [reflexivity | discriminate].
Defined.

Module Example5.
Import Cmd.

(** [install --domain "*.example.com" --standalone --webroot /var/www
    --nginx --email admin@example.com] *)
Definition fl_two_intents_wild : Flags :=
  {| fl_domain := "*.example.com"; fl_domains := "";
     fl_email := runes "admin@example.com"; fl_webroot := "/var/www";
     fl_standalone := true; fl_dns := false; fl_nginx := true;
     fl_apache := false; fl_iis := false |}.

(** [install --domains "example.com,www.example.com" --nginx
    --email admin@example.com] *)
Definition fl_default : Flags :=
  {| fl_domain := ""; fl_domains := "example.com,www.example.com";
     fl_email := runes "admin@example.com"; fl_webroot := "";
     fl_standalone := false; fl_dns := false; fl_nginx := true;
     fl_apache := false; fl_iis := false |}.

End Example5.

(** C5 (counterexample). Two explicit intents (--standalone and --webroot)
    on a wildcard domain without --dns: the request is rejected, but with
    the wildcard-requires-DNS error, not the conflicting-intent one. *)
Lemma install_two_intents_not_conflict_error :
  Cmd.parseDomains Example5.fl_two_intents_wild = Ok ["*.example.com"] /\
  Cmd.validateInstallFlags Example5.fl_two_intents_wild ["*.example.com"]
    = Err (EMsg Cmd.msg_wildcard_dns) /\
  Cmd.msg_wildcard_dns <> Cmd.msg_conflict.
Proof.
  split; [reflexivity | split; [reflexivity | discriminate]].
Qed.

(** C5 (amended). For a request whose domains parse: with more than one
    explicit intent among --standalone, --webroot and --dns, the request
    is rejected by [validateInstallFlags] and [runInstall] returns its
    error, wrapped as a flag-validation failure, with the state untouched
    (no effect at all).  That error is the conflicting-intent one exactly
    when one web-server flag is given and the wildcard check passes (no
    wildcard domain, or --dns given); otherwise it is the missing
    web-server error (no web-server flag), the several-web-servers error
    (more than one), or the wildcard-requires-DNS error (a wildcard domain
    without --dns).  With no explicit intent and validation passing, the
    manager's method is Webroot. *)
Theorem install_challenge_selection : forall fl dir ds env s,
  Cmd.parseDomains fl = Ok ds ->
  (Cmd.intent_count fl > 1 ->
   exists msg,
     Cmd.validateInstallFlags fl ds = Err (EMsg msg) /\
     Cmd.runInstall fl dir env s = (Err (EWrap "flag validation failed" (EMsg msg)), s) /\
     (Cmd.server_count fl = 0 -> msg = Cmd.msg_need_server) /\
     (Cmd.server_count fl > 1 -> msg = Cmd.msg_one_server) /\
     (Cmd.server_count fl = 1 -> Cmd.wildcard_without_dns fl ds = true ->
      msg = Cmd.msg_wildcard_dns) /\
     (Cmd.server_count fl = 1 -> Cmd.wildcard_without_dns fl ds = false ->
      msg = Cmd.msg_conflict)) /\
  (Cmd.fl_standalone fl = false -> Cmd.fl_webroot fl = "" ->
   Cmd.fl_dns fl = false ->
   forall m, Cmd.validateInstallFlags fl ds = Ok tt ->
   Cmd.buildManager fl dir ds = Some m ->
   Cert.challengeType m = Cert.ChallengeWebroot).
Proof.
  intros fl dir ds env s Hp; split.
  - intros Hc; unfold Cmd.runInstall; rewrite Hp.
    unfold Cmd.validateInstallFlags, Cmd.intent_count, Cmd.server_count,
      Cmd.wildcard_without_dns in *.
    destruct (Cmd.fl_standalone fl), (string_eqb (Cmd.fl_webroot fl) ""),
      (Cmd.fl_dns fl), (Cmd.fl_nginx fl), (Cmd.fl_apache fl), (Cmd.fl_iis fl),
      (existsb (fun d => HasPrefix d "*.") ds);
      simpl in *; try lia;
      eexists; (split; [reflexivity |]); (split; [reflexivity |]);
      repeat split; intros; first [reflexivity | lia | discriminate].
  - intros Hs Hw Hd m Hv Hb.
    rewrite (buildManager_challenge _ _ _ _ Hb), Hs, Hd; simpl.
    destruct (existsb (fun d => HasPrefix d "*.") ds) eqn:W; [| reflexivity].
    unfold Cmd.validateInstallFlags in Hv; rewrite W, Hd in Hv.
    destruct (negb (Cmd.fl_nginx fl) && negb (Cmd.fl_apache fl)
              && negb (Cmd.fl_iis fl)); [discriminate |].
    destruct (_ >? 1)%Z; discriminate.
Qed.

Lemma install_challenge_selection_witness :
  exists m,
    Cmd.validateInstallFlags Example5.fl_default
      ["example.com"; "www.example.com"] = Ok tt /\
    Cmd.buildManager Example5.fl_default "/etc/autocert"
      ["example.com"; "www.example.com"] = Some m /\
    Cert.challengeType m = Cert.ChallengeWebroot.
Proof.
  eexists; split; [reflexivity | split; [reflexivity |]].
  apply (proj2 (install_challenge_selection Example5.fl_default "/etc/autocert"
           ["example.com"; "www.example.com"] Example4.env_ok Example10.st0
           eq_refl)); reflexivity.
Defined.

(** ** C8: syntactic validation of domain entries *)

Lemma validateDomainName_ok : forall d,
  Cmd.validateDomainName d = Ok tt ->
  d <> "" /\ ContainsChar d " " = false /\
  (HasPrefix d "*." = true ->
   (4 <= String.length d)%nat /\
   ContainsChar (substring 2 (String.length d - 2) d) "*" = false).
Proof.
  intros d H; unfold Cmd.validateDomainName in H.
  destruct (String.length d =? 0)%nat eqn:L; [discriminate |].
  split; [intro; subst; discriminate |].
  destruct (HasPrefix d "*.") eqn:P.
  - destruct (String.length d <? 4)%nat eqn:L4; [discriminate |].
    apply Nat.ltb_ge in L4.
    destruct (ContainsChar (substring 2 (String.length d - 2) d) "*"); [discriminate |].
    destruct (ContainsChar d " "); [discriminate |]; auto.
  - destruct (ContainsChar d " "); [discriminate |]; split; auto; discriminate.
Qed.

Lemma checkDomains_ok : forall l,
  Cmd.checkDomains l = Ok tt -> Forall (fun d => Cmd.validateDomainName d = Ok tt) l.
Proof.
  induction l as [|d l IH]; simpl; intros H; constructor.
  - destruct (string_eqb d ""); [discriminate |].
    destruct (Cmd.validateDomainName d) as [[]|]; [reflexivity | discriminate].
  - destruct (string_eqb d ""); [discriminate |].
    destruct (Cmd.validateDomainName d) as [[]|]; [auto | discriminate].
Qed.

Module Example8.
Import Cmd.

Definition flags_for (ds : string) : Flags :=
  {| fl_domain := ""; fl_domains := ds; fl_email := runes "admin@example.com";
     fl_webroot := ""; fl_standalone := false; fl_dns := false;
     fl_nginx := true; fl_apache := false; fl_iis := false |}.

(** ["exa<TAB>mple.com"] *)
Definition with_tab : string :=
  String.append "exa" (String (ascii_of_nat 9) "mple.com").

End Example8.

(** C8 (counterexample). An entry with an inner tab and an entry with a
    [*] in a non-leading label are both accepted by [parseDomains]. *)
Lemma parseDomains_accepts_tab_and_inner_star :
  Cmd.parseDomains (Example8.flags_for Example8.with_tab) = Ok [Example8.with_tab] /\
  Cmd.parseDomains (Example8.flags_for "www.*.example.com")
    = Ok ["www.*.example.com"].
Proof. split; reflexivity. Qed.

(** C8 (amended). [parseDomains] is a pure function of the flags.  Every
    entry of an accepted domain list is non-empty, contains no space
    character, and, when it starts with [*.], has at least two characters
    after the [*.] and no other [*] (so [*.x] is rejected).  Conversely an
    entry is accepted when it is non-empty, has no space character and,
    if it starts with [*.], satisfies those two conditions: whatever else
    it contains (other white space such as a tab, or a [*] in an entry
    that does not start with [*.]). *)
Theorem domain_validation : forall fl ds,
  Cmd.parseDomains fl = Ok ds ->
  Forall (fun d => d <> "" /\ ContainsChar d " " = false /\
            (HasPrefix d "*." = true ->
             (4 <= String.length d)%nat /\
             ContainsChar (substring 2 (String.length d - 2) d) "*" = false)) ds /\
  (forall d, d <> "" -> ContainsChar d " " = false ->
   (HasPrefix d "*." = true ->
    (4 <= String.length d)%nat /\
    ContainsChar (substring 2 (String.length d - 2) d) "*" = false) ->
   Cmd.validateDomainName d = Ok tt).
Proof.
  intros fl ds H; split.
  - unfold Cmd.parseDomains in H.
    destruct (if negb (string_eqb (Cmd.fl_domains fl) "") then _ else _)
      as [l|]; [| discriminate].
    destruct (Cmd.checkDomains l) as [[]|] eqn:C; [| discriminate].
    injection H as <-.
    eapply Forall_impl; [| apply checkDomains_ok; exact C].
    intros d Hd; apply validateDomainName_ok; exact Hd.
  - intros d Hne Hs Hw; unfold Cmd.validateDomainName; rewrite Hs.
    destruct (String.length d =? 0)%nat eqn:L.
    { destruct d; [congruence | discriminate]. }
    destruct (HasPrefix d "*.") eqn:P; [| reflexivity].
    destruct (Hw eq_refl) as [L4 Hc].
    apply Nat.ltb_ge in L4; rewrite L4, Hc; reflexivity.
Qed.

Lemma domain_validation_witness :
  Forall (fun d => d <> "" /\ ContainsChar d " " = false /\
            (HasPrefix d "*." = true ->
             (4 <= String.length d)%nat /\
             ContainsChar (substring 2 (String.length d - 2) d) "*" = false))
    ["example.com"; "*.example.com"] /\
  (forall d, d <> "" -> ContainsChar d " " = false ->
   (HasPrefix d "*." = true ->
    (4 <= String.length d)%nat /\
    ContainsChar (substring 2 (String.length d - 2) d) "*" = false) ->
   Cmd.validateDomainName d = Ok tt).
Proof.
  apply (domain_validation (Example8.flags_for "example.com, *.example.com")).
  reflexivity.
Defined.

(** ** The steps of [Install] *)

Lemma Appends_true {A} (m : M A) : Appends nocfg m -> Appends (fun _ => True) m.
Proof. apply Appends_weaken; auto. Qed.

#[export] Hint Resolve CertFacts.createCertDir_appends
  CertFacts.generatePrivateKey_appends CertFacts.createCSR_appends
  CertFacts.obtainCertificate_appends CertFacts.saveCertificate_appends
  : appends.

Lemma bind_Ok_inv {A B} (m : M A) (k : A -> M B) env s r s' a s1 :
  bind m k env s = (r, s') -> m env s = (Ok a, s1) -> k a env s1 = (r, s').
Proof. unfold bind; intros H E; rewrite E in H; exact H. Qed.

Lemma bind_Err_inv {A B} (m : M A) (k : A -> M B) env s r s' e s1 :
  bind m k env s = (r, s') -> m env s = (Err e, s1) -> r = Err e /\ s' = s1.
Proof. unfold bind; intros H E; rewrite E in H; inversion H; auto. Qed.

Lemma wrap_Ok_inv {A} ctx (m : M A) env s a s1 :
  wrap ctx m env s = (Ok a, s1) -> m env s = (Ok a, s1).
Proof.
  unfold wrap; destruct (m env s) as [[b|e] s2]; intros H; inversion H; auto.
Qed.

Lemma wrap_Err_inv {A} ctx (m : M A) env s e s1 :
  wrap ctx m env s = (Err e, s1) ->
  exists e0, e = EWrap ctx e0 /\ m env s = (Err e0, s1).
Proof.
  unfold wrap; destruct (m env s) as [[b|e0] s2]; intros H; inversion H; eauto.
Qed.

(** Split [H : bind m k env s = (r, s')] on the outcome of [m], naming the
    equation of that outcome [E]. *)
Ltac bstep H E :=
  match type of H with
  | bind ?m ?k ?env ?s = _ =>
      let a := fresh "a" in let e := fresh "e" in let s1 := fresh "s" in
      destruct (m env s) as [[a|e] s1] eqn:E;
      [ apply (bind_Ok_inv m k env s _ _ a s1 H) in E as ?H'; clear H;
        rename H' into H; cbv beta in H
      | destruct (bind_Err_inv m k env s _ _ e s1 H E); subst ]
  end.

Lemma createCertDir_spec m env s r s' :
  Cert.createCertDir m env s = (r, s') ->
  (exists e, r = Err e /\ s' = s) \/
  (r = Ok tt /\ trace s' = trace s ++ [EMkdir (Join [Cert.certDir m; Cert.getDirName m])]
   /\ fs s' = fs s).
Proof.
  unfold Cert.createCertDir, os_MkdirAll, bind, ask, emit, fail, ret; intros H.
  destruct (e_fs_fail env _); inversion H; subst; [left; eauto | right; auto].
Qed.

Lemma rsa_GenerateKey_spec n env s r s' :
  rsa_GenerateKey n env s = (r, s') ->
  r = Ok (RSAKey (next_id s) n) /\ trace s' = trace s /\ fs s' = fs s /\
  next_id s' = S (next_id s) /\ clock s' = clock s.
Proof.
  unfold rsa_GenerateKey, fresh, bind, ret; intros H; inversion H; auto.
Qed.

Lemma os_Create_spec p env s r s' :
  os_Create p env s = (r, s') ->
  (r = Err os_error /\ s' = s) \/
  (r = Ok tt /\ trace s' = trace s ++ [ECreate p] /\ fs s' p <> None /\
   next_id s' = next_id s).
Proof.
  unfold os_Create, set_file, emit, ask, get_st, bind, ret, fail; intros H.
  destruct (e_fs_fail env p); inversion H; subst; [left; auto | right].
  simpl; unfold fs_update; rewrite String.eqb_refl; repeat split; discriminate.
Qed.

Lemma file_Write_spec p b env s r s' :
  file_Write p b env s = (r, s') ->
  r = Ok tt /\ trace s' = trace s ++ [EWrite p b] /\ fs s' p <> None /\
  next_id s' = next_id s.
Proof.
  unfold file_Write, set_file, emit, get_st, bind, ret; intros H.
  inversion H; subst; simpl; unfold fs_update; rewrite String.eqb_refl.
  repeat split; discriminate.
Qed.

Lemma os_Chmod_spec p perm env s r s' :
  os_Chmod p perm env s = (r, s') ->
  (r = Err os_error /\ s' = s) \/
  (r = Ok tt /\ trace s' = trace s ++ [EChmod p perm] /\ fs s' p <> None /\
   next_id s' = next_id s).
Proof.
  unfold os_Chmod, set_file, emit, ask, get_st, bind, ret, fail; intros H.
  destruct (fs s p); [| inversion H; auto].
  destruct (e_fs_fail env p); inversion H; subst; [left; auto | right].
  simpl; unfold fs_update; rewrite String.eqb_refl; repeat split; discriminate.
Qed.

Lemma generatePrivateKey_spec m env s r s' :
  Cert.generatePrivateKey m env s = (r, s') ->
  (exists e l, r = Err e /\ trace s' = trace s ++ l /\
     Forall (fun ev => is_remote ev = false) l) \/
  (exists k, r = Ok (RSAKey k (Cert.keySize m)) /\ (k < next_id s')%nat /\
     trace s' = trace s ++ [ECreate (Cert.getKeyPath m);
                            EWrite (Cert.getKeyPath m) (BPemKey (RSAKey k (Cert.keySize m)));
                            EChmod (Cert.getKeyPath m) 384] /\
     fs s' (Cert.getKeyPath m) <> None).
Proof.
  unfold Cert.generatePrivateKey; cbv zeta; intros H.
  bstep H E1; apply rsa_GenerateKey_spec in E1 as (R1 & T1 & F1 & N1 & _);
    [| discriminate]; injection R1 as ->.
  bstep H E2; apply os_Create_spec in E2 as [(R2 & ->) | (R2 & T2 & F2 & N2)];
    try discriminate.
  2: { injection R2 as ->; left; exists os_error, []; rewrite T1, app_nil_r; auto. }
  bstep H E3; apply file_Write_spec in E3 as (R3 & T3 & F3 & N3); [| discriminate].
  bstep H E4; apply os_Chmod_spec in E4 as [(R4 & ->) | (R4 & T4 & F4 & N4)];
    try discriminate.
  - unfold ret in H; inversion H; subst; right; eexists; repeat split.
    + lia.
    + rewrite T4, T3, T2, T1, <- !app_assoc; reflexivity.
    + exact F4.
  - injection R4 as ->; left; do 2 eexists; split; [reflexivity |].
    rewrite T3, T2, T1, <- !app_assoc; split; [reflexivity | repeat constructor].
Qed.

Ltac appends_any :=
  cbv zeta;
  repeat first [ appends_step | apply Appends_true; solve [eauto with appends] ].

(** Everything [Install] does after the private key is written. *)
Lemma Install_tail_appends m k :
  Appends (fun _ => True)
    (csr <- wrap "create CSR failed" (Cert.createCSR m k) ;;
     certBytes <- wrap Cert.ctx_obtain (Cert.obtainCertificate m csr) ;;
     wrap "save certificate failed" (Cert.saveCertificate m certBytes) ;;;
     wrap "configure web server failed" (Cert.configureWebServer m) ;;;
     ret tt).
Proof.
  unfold Cert.configureWebServer, Cert.cfg_Configure, Cert.cfg_Test,
    Cert.cfg_Reload; appends_any.
Qed.

(** ** C6: the private key is on disk before any remote call *)

(** C6. In every run of [Install], either no remote call is made at all,
    or the run starts with: create the certificate directory, create the
    key file, write the freshly generated RSA key of the configured size
    ([keySize], 2048 for a manager built by [NewManager]) into it, and
    restrict it to 0600; every remote call comes after these four effects,
    and the key file is still present when [Install] returns, whatever the
    remote calls answered. *)
Theorem Install_key_before_remote : forall m env s r s',
  Cert.Install m env s = (r, s') ->
  exists l, trace s' = trace s ++ l /\
    (Forall (fun ev => is_remote ev = false) l \/
     exists k post,
       l = [EMkdir (Join [Cert.certDir m; Cert.getDirName m]);
            ECreate (Cert.getKeyPath m);
            EWrite (Cert.getKeyPath m) (BPemKey (RSAKey k (Cert.keySize m)));
            EChmod (Cert.getKeyPath m) 384] ++ post /\
       fs s' (Cert.getKeyPath m) <> None).
Proof.
  intros m env s r s' H; unfold Cert.Install in H.
  destruct (Cert.HasWildcard m && _).
  { inversion H; subst; exists []; rewrite app_nil_r; split; auto. }
  bstep H E1.
  - apply wrap_Ok_inv, createCertDir_spec in E1
      as [(e & R & _) | (_ & T1 & _)]; [discriminate |].
    bstep H E2.
    + apply wrap_Ok_inv, generatePrivateKey_spec in E2
        as [(e & l & R & _) | (k & R & _ & T2 & F2)]; [discriminate |].
      injection R as ->.
      destruct (Install_tail_appends m (RSAKey k (Cert.keySize m)) _ _ _ _ H)
        as (l & T & _ & _ & K).
      eexists; split; [rewrite T, T2, T1, <- !app_assoc; reflexivity |].
      right; exists k, l; split; [reflexivity | auto].
    + apply wrap_Err_inv in E2 as (e0 & _ & E2).
      apply generatePrivateKey_spec in E2
        as [(e1 & l & _ & T2 & F2) | (k & R & _)]; [| discriminate].
      eexists; split; [rewrite T2, T1, <- app_assoc; reflexivity |].
      left; constructor; [reflexivity | exact F2].
  - apply wrap_Err_inv in E1 as (e0 & _ & E1).
    apply createCertDir_spec in E1 as [(e1 & _ & ->) | (R & _)]; [| discriminate].
    exists []; rewrite app_nil_r; split; auto.
Qed.

Lemma Install_key_before_remote_witness :
  exists r s', Cert.Install Example4.m1 Example4.env_ok Example10.st0 = (r, s') /\
  exists l, trace s' = trace Example10.st0 ++ l /\
    (Forall (fun ev => is_remote ev = false) l \/
     exists k post,
       l = [EMkdir (Join [Cert.certDir Example4.m1; Cert.getDirName Example4.m1]);
            ECreate (Cert.getKeyPath Example4.m1);
            EWrite (Cert.getKeyPath Example4.m1)
              (BPemKey (RSAKey k (Cert.keySize Example4.m1)));
            EChmod (Cert.getKeyPath Example4.m1) 384] ++ post /\
       fs s' (Cert.getKeyPath Example4.m1) <> None).
Proof.
  set (run := Cert.Install Example4.m1 Example4.env_ok Example10.st0).
  exists (fst run), (snd run); split; [vm_compute; reflexivity |].
  apply (Install_key_before_remote Example4.m1 Example4.env_ok Example10.st0 (fst run));
  vm_compute; reflexivity.
Defined.

(** ** C7: configure, then test, then reload *)

(** The configurator calls a run of [Install] can end with, as seen
    through [filter is_cfg] of the events it appended. *)
Definition cfg_outcome (env : Env) (r : res unit) (c : list event) : Prop :=
  (c = [] /\ exists e, r = Err e) \/
  (c = [EConfigure false] /\
   r = Err (EWrap "configure web server failed" (EMsg "configure failed"))) \/
  (c = [EConfigure true; ETest false] /\
   r = Err (EWrap "configure web server failed"
             (EWrap "configuration test failed" (EMsg "configuration test failed")))) \/
  (c = [EConfigure true; ETest true; EReload (e_reload_ok env)] /\
   (r = Ok tt <-> e_reload_ok env = true)).

Definition CfgShape (m : M unit) : Prop :=
  forall env s r s', m env s = (r, s') ->
    exists l, trace s' = trace s ++ l /\ cfg_outcome env r (filter is_cfg l).

Lemma filter_nocfg l : Forall nocfg l -> filter is_cfg l = [].
Proof.
  induction 1 as [| ev l Hev _ IH]; simpl; [reflexivity |].
  unfold nocfg in Hev; rewrite Hev; exact IH.
Qed.

Lemma CfgShape_bind {A} (m : M A) (k : A -> M unit) :
  Appends nocfg m -> (forall a, CfgShape (k a)) -> CfgShape (bind m k).
Proof.
  intros Hm Hk env s r s' H.
  bstep H E.
  - destruct (Hm _ _ _ _ E) as (l1 & T1 & F1 & _ & _).
    destruct (Hk _ _ _ _ _ H) as (l2 & T2 & C2).
    exists (l1 ++ l2); split; [rewrite T2, T1, app_assoc; reflexivity |].
    rewrite filter_app, (filter_nocfg _ F1); exact C2.
  - destruct (Hm _ _ _ _ E) as (l1 & T1 & F1 & _ & _).
    exists l1; split; [exact T1 |].
    left; split; [apply filter_nocfg, F1 | eauto].
Qed.

Lemma configureWebServer_shape m :
  Cert.configurator m = true ->
  CfgShape (wrap "configure web server failed" (Cert.configureWebServer m) ;;; ret tt).
Proof.
  intros Hc env s r s' H.
  unfold Cert.configureWebServer, Cert.cfg_Configure, Cert.cfg_Test,
    Cert.cfg_Reload in H; rewrite Hc in H.
  unfold bind, wrap, ask, emit, ret, fail in H; simpl in H.
  unfold cfg_outcome.
  destruct (e_configure_ok env), (e_test_ok env), (e_reload_ok env);
    simpl in H; inversion H; subst; eexists;
    (split; [unfold with_trace; simpl; rewrite <- ?app_assoc; reflexivity |]);
    simpl; intuition congruence.
Qed.

Lemma Install_shape m : Cert.configurator m = true -> CfgShape (Cert.Install m).
Proof.
  intros Hc; unfold Cert.Install.
  destruct (Cert.HasWildcard m && _).
  { intros env s r s' H; inversion H; subst.
    exists []; rewrite app_nil_r; split; [reflexivity |]; left; eauto. }
  repeat (apply CfgShape_bind; [solve [appends_solve] | intro]).
  apply configureWebServer_shape, Hc.
Qed.

(** C7. For a manager with a bound web-server configurator, the
    configurator operations a run of [Install] performs, in order, are one
    of: none (the run failed before reaching them); configure alone, which
    failed, and the run fails with that error; configure then test, where
    test failed, and the run fails with that (wrapped) error; or configure,
    test and reload, each once, after both configure and test succeeded,
    the run succeeding exactly when reload does. In particular reload is
    never invoked after a failed configure or test. *)
Theorem Install_configurator_order : forall m env s r s',
  Cert.configurator m = true ->
  Cert.Install m env s = (r, s') ->
  exists l, trace s' = trace s ++ l /\
    ((filter is_cfg l = [] /\ exists e, r = Err e) \/
     (filter is_cfg l = [EConfigure false] /\
      r = Err (EWrap "configure web server failed" (EMsg "configure failed"))) \/
     (filter is_cfg l = [EConfigure true; ETest false] /\
      r = Err (EWrap "configure web server failed"
                (EWrap "configuration test failed"
                  (EMsg "configuration test failed")))) \/
     (filter is_cfg l = [EConfigure true; ETest true; EReload (e_reload_ok env)] /\
      (r = Ok tt <-> e_reload_ok env = true))).
Proof.
  intros m env s r s' Hc H.
  exact (Install_shape m Hc env s r s' H).
Qed.

Lemma Install_configurator_order_witness :
  exists r s', Cert.configurator Example7.m7 = true /\
  Cert.Install Example7.m7 Example7.env_test_fails Example10.st0 = (r, s') /\
  exists l, trace s' = trace Example10.st0 ++ l /\
    ((filter is_cfg l = [] /\ exists e, r = Err e) \/
     (filter is_cfg l = [EConfigure false] /\
      r = Err (EWrap "configure web server failed" (EMsg "configure failed"))) \/
     (filter is_cfg l = [EConfigure true; ETest false] /\
      r = Err (EWrap "configure web server failed"
                (EWrap "configuration test failed"
                  (EMsg "configuration test failed")))) \/
     (filter is_cfg l = [EConfigure true; ETest true;
                         EReload (e_reload_ok Example7.env_test_fails)] /\
      (r = Ok tt <-> e_reload_ok Example7.env_test_fails = true))).
Proof.
  set (run := Cert.Install Example7.m7 Example7.env_test_fails Example10.st0).
  exists (fst run), (snd run); split; [reflexivity |].
  split; [vm_compute; reflexivity |].
  apply (Install_configurator_order Example7.m7 Example7.env_test_fails
           Example10.st0 (fst run)); [reflexivity | vm_compute; reflexivity].
Defined.

(** ** C1: the self-signed fallback of the ACME path *)

(** The event of a certificate order the ACME server granted: the remote
    acquisition path has failed in a run exactly when its trace has no such
    event (the client could not be created, the challenge provider could
    not be installed, or the order was refused). *)
Definition is_obtained (e : event) : bool :=
  match e with ERemote RObtain true => true | _ => false end.

Lemma catch_inv {A} (m : M A) env s r s1 :
  catch m env s = (Ok r, s1) -> m env s = (r, s1).
Proof. unfold catch; destruct (m env s); intros H; inversion H; auto. Qed.

Lemma catch_not_Err {A} (m : M (res A)) (m0 : M A) env s e s1 :
  m = catch m0 -> m env s = (Err e, s1) -> False.
Proof. intros ->; unfold catch; destruct (m0 env s); discriminate. Qed.

Lemma ObtainCertificate_run c d env s r s1 :
  Acme.ObtainCertificate c d env s = (r, s1) ->
  (exists e, r = Err e /\ trace s1 = trace s ++ [ERemote RObtain false]) \/
  (exists cert c0, r = Ok cert /\ trace s1 = trace s ++ [ERemote RObtain true] /\
     Acme.r_Certificate cert = BConcat (BPem (BDer c0)) (BPem (BText "issuer"))).
Proof.
  unfold Acme.ObtainCertificate, rsa_GenerateKey, bind, ask, emit, now, fresh,
    ret, fail; simpl.
  destruct (e_obtain env); simpl; intros H; inversion H; subst; simpl.
  - right; do 2 eexists; split; [reflexivity | split; reflexivity].
  - left; eauto.
Qed.

Lemma obtained_in_trace l1 l2 :
  existsb is_obtained (l1 ++ ERemote RObtain true :: l2) = false -> False.
Proof. rewrite existsb_app; simpl; rewrite orb_true_r; discriminate. Qed.

Ltac app_fact E T N :=
  lazymatch type of E with
  | ?mm _ _ = _ =>
      let HA := fresh "HA" in
      assert (HA : Appends nocfg mm) by (appends_solve; eauto with appends);
      destruct (HA _ _ _ _ E) as (?l & T & ?F & N & ?K); clear HA
  end.

Lemma ascii_utf8_valid l :
  forallb (fun c => Nat.ltb (nat_of_ascii c) 128) l = true -> utf8_valid l = true.
Proof.
  induction l as [| c l IH]; simpl; [reflexivity |].
  intros H; apply andb_prop in H as [Hc Hl].
  rewrite Hc; apply IH, Hl.
Qed.

(** ASCII names can always be encoded. *)
Lemma ascii_names_ok cn l :
  forallb is_ia5 (cn :: l) = true -> x509_names_ok cn l = true.
Proof.
  simpl; intros H; apply andb_prop in H as [Hc Hl].
  unfold x509_names_ok; rewrite Hl, andb_true_r.
  apply ascii_utf8_valid, Hc.
Qed.

Lemma generateSelfSignedCert_spec m env s r s' :
  x509_names_ok (Cert.primaryDomain m) (Cert.domains m) = true ->
  Cert.generateSelfSignedCert m None env s = (r, s') ->
  r = Ok (BDer (SelfSigned (Cert.primaryDomain m) (Cert.domains m)
                 (x509_time (clock s))
                 (x509_time (clock s + e_tick env + 90 * 24 * Hour))
                 (RSAKey (next_id s) 2048)))
  /\ trace s' = trace s /\ fs s' = fs s.
Proof.
  intros Hn; unfold Cert.generateSelfSignedCert, bind, now, rsa_GenerateKey,
    fresh, ret; cbn beta iota zeta; rewrite Hn.
  simpl; intros H; inversion H; subst; simpl; auto.
Qed.

(** Whenever no order is granted, [obtainWithACME] ends by generating a
    self-signed certificate, after steps that only append non-configurator
    events, keep every file and never lower the key counter. *)
Lemma obtainWithACME_fallback m ct env s r s' :
  Cert.obtainWithACME m ct env s = (r, s') ->
  existsb is_obtained (trace s') = false ->
  exists s1, (exists l, trace s1 = trace s ++ l /\ Forall nocfg l) /\
    (next_id s <= next_id s1)%nat /\
    (forall p, fs s p <> None -> fs s1 p <> None) /\
    Cert.generateSelfSignedCert m None env s1 = (r, s').
Proof.
  intros H Hno; unfold Cert.obtainWithACME in H.
  bstep H E1; [| exfalso; eapply catch_not_Err; [reflexivity | exact E1]].
  app_fact E1 T1 N1.
  destruct a as [client | e1].
  2: { exists s0; split; [eauto | split; [exact N1 | split; [exact K | exact H]]]. }
  bstep H E2; [| exfalso; eapply catch_not_Err; [reflexivity | exact E2]].
  app_fact E2 T2 N2.
  destruct a as [u | e2].
  2: { exists s1; split; [| split; [lia | split; [auto | exact H]]].
       exists (l ++ l0); split; [rewrite T2, T1, app_assoc; reflexivity |].
       apply Forall_app; auto. }
  bstep H E3; [| exfalso; eapply catch_not_Err; [reflexivity | exact E3]].
  app_fact E3 T3 N3.
  destruct a as [cert | e3].
  - exfalso; apply catch_inv, ObtainCertificate_run in E3
      as [(e3 & [=] & _) | (cert' & c0 & _ & T3' & _)].
    app_fact H T4 N4.
    rewrite T4, T3' in Hno; rewrite <- app_assoc in Hno.
    exact (obtained_in_trace _ _ Hno).
  - exists s2; split; [| split; [lia | split; [auto | exact H]]].
    exists (l ++ l0 ++ l1); split; [rewrite T3, T2, T1, !app_assoc; reflexivity |].
    apply Forall_app; split; [auto | apply Forall_app; auto].
Qed.

Lemma createCertDir_nofail m env s r s1 :
  (forall p, e_fs_fail env p = false) ->
  Cert.createCertDir m env s = (r, s1) -> r = Ok tt.
Proof.
  intros Hfs; unfold Cert.createCertDir, os_MkdirAll, bind, ask, emit, fail, ret.
  rewrite Hfs; intros H; inversion H; auto.
Qed.

Lemma generatePrivateKey_nofail m env s r s1 :
  (forall p, e_fs_fail env p = false) ->
  Cert.generatePrivateKey m env s = (r, s1) -> exists k, r = Ok k.
Proof.
  intros Hfs; unfold Cert.generatePrivateKey, os_Create, file_Write, os_Chmod,
    rsa_GenerateKey, fresh, bind, ask, get_st, emit, set_file, fail, ret.
  simpl; rewrite !Hfs; unfold fs_update; rewrite !String.eqb_refl; simpl.
  intros H; inversion H; eauto.
Qed.

Lemma saveCertificate_nofail m b env s r s1 :
  (forall p, e_fs_fail env p = false) ->
  Cert.saveCertificate m b env s = (r, s1) -> r = Ok tt.
Proof.
  intros Hfs; unfold Cert.saveCertificate, os_Create, file_Write, os_WriteFile,
    catch, bind, ask, get_st, emit, set_file, fail, ret.
  simpl; rewrite !Hfs; simpl.
  destruct (1 <? _)%Z; [rewrite !Hfs |]; simpl; intros H; inversion H; auto.
Qed.


(** The same at the level of [obtainCertificate], for the two ACME modes. *)
Lemma obtainCertificate_fallback m csr env s r s' :
  Cert.challengeType m <> Cert.ChallengeDNS -> Cert.HasWildcard m = false ->
  x509_names_ok (Cert.primaryDomain m) (Cert.domains m) = true ->
  Cert.obtainCertificate m csr env s = (r, s') ->
  existsb is_obtained (trace s') = false ->
  exists s1, (exists l, trace s1 = trace s ++ l /\ Forall nocfg l) /\
    (next_id s <= next_id s1)%nat /\
    (forall p, fs s p <> None -> fs s1 p <> None) /\
    r = Ok (BDer (SelfSigned (Cert.primaryDomain m) (Cert.domains m)
                   (x509_time (clock s1))
                   (x509_time (clock s1 + e_tick env + 90 * 24 * Hour))
                   (RSAKey (next_id s1) 2048))) /\
    trace s' = trace s1 /\ fs s' = fs s1.
Proof.
  intros Hct Hw Hn H Hno.
  assert (Hacme : exists ct, Cert.obtainWithACME m ct env s = (r, s')).
  { unfold Cert.obtainCertificate, Cert.obtainCertificateWebroot,
      Cert.obtainCertificateStandalone in H; rewrite Hw in H.
    destruct (Cert.challengeType m); [| | congruence]; eexists; exact H. }
  destruct Hacme as (ct & Hacme).
  destruct (obtainWithACME_fallback m ct env s r s' Hacme Hno)
    as (s1 & Hl & N & K & G).
  apply generateSelfSignedCert_spec in G as (R & T & F); [| exact Hn].
  exists s1; repeat (split; [eassumption |]); auto.
Qed.

(** What [Install] does after obtaining the certificate never fails with
    the obtain error. *)
Lemma Install_save_not_obtain_err m cert env s r s' :
  (wrap "save certificate failed" (Cert.saveCertificate m cert) ;;;
   wrap "configure web server failed" (Cert.configureWebServer m) ;;;
   ret tt) env s = (r, s') ->
  forall e, r <> Err (EWrap Cert.ctx_obtain e).
Proof.
  intros H e Heq; unfold Cert.ctx_obtain in Heq.
  bstep H E1.
  - bstep H E2; [unfold ret in H; congruence |].
    apply wrap_Err_inv in E2 as (e9 & He9 & _); congruence.
  - apply wrap_Err_inv in E1 as (e9 & He9 & _); congruence.
Qed.

Lemma Install_save_ok m cert env s r s' :
  (forall p, e_fs_fail env p = false) -> Cert.configurator m = false ->
  (wrap "save certificate failed" (Cert.saveCertificate m cert) ;;;
   wrap "configure web server failed" (Cert.configureWebServer m) ;;;
   ret tt) env s = (r, s') -> r = Ok tt.
Proof.
  intros Hfs Hc H.
  bstep H E1.
  - unfold Cert.configureWebServer in H; rewrite Hc in H; simpl in H.
    unfold wrap, bind, ret in H; inversion H; auto.
  - apply wrap_Err_inv in E1 as (e9 & _ & E1).
    apply saveCertificate_nofail in E1; [discriminate | exact Hfs].
Qed.

(** The outcome of the CSR step of [Install]: the state is unchanged, and
    the step fails exactly on names [crypto/x509] cannot encode. *)
Lemma createCSR_run m k env s r s1 :
  wrap "create CSR failed" (Cert.createCSR m k) env s = (r, s1) ->
  s1 = s /\
  (x509_names_ok (Cert.primaryDomain m) (Cert.domains m) = true <->
   exists c, r = Ok c).
Proof.
  unfold wrap, Cert.createCSR, ret, fail.
  destruct (x509_names_ok _ _); intros H; inversion H; subst.
  - split; [reflexivity | split; eauto].
  - split; [reflexivity | split; [discriminate | intros [c Hc]; discriminate]].
Qed.

(** C1 (amended). For a domain set without wildcard names installed
    through an ACME mode (webroot or standalone), in every run where the
    ACME server grants no certificate order (whatever failed: the e-mail is
    empty, the account could not be loaded or created, the directory is
    unreachable, registration is refused, the challenge provider cannot be
    installed, or the order fails), [Install] never returns the obtain
    error. Either it stopped before any remote call (with the error of a
    local step: certificate directory, key file, or CSR, which fails on a
    name [crypto/x509] cannot encode), or: the key file holds a freshly
    generated RSA key [kf], and the rest of the run is exactly
    [saveCertificate] of a self-signed certificate for the primary domain
    with the manager's domains as names, valid from a clock reading [nb]
    truncated to the second to [nb + tick + 90 days] (the second clock
    reading plus 90 days) truncated to the second, whose key [kc] is
    another freshly generated RSA-2048 key, distinct from [kf], followed
    by the web-server configuration. With ASCII names, no file system
    failure and no configurator the run succeeds. *)
Theorem Install_acme_fallback : forall m env s r s',
  Cert.challengeType m <> Cert.ChallengeDNS -> Cert.HasWildcard m = false ->
  Cert.Install m env s = (r, s') ->
  existsb is_obtained (trace s') = false ->
  (forall e, r <> Err (EWrap Cert.ctx_obtain e)) /\
  ((exists e l, r = Err e /\ trace s' = trace s ++ l /\
      Forall (fun ev => is_remote ev = false) l) \/
   exists kf s2 nb kc,
     fs s2 (Cert.getKeyPath m) <> None /\
     In (EWrite (Cert.getKeyPath m) (BPemKey (RSAKey kf (Cert.keySize m))))
        (trace s2) /\
     kf <> kc /\
     (wrap "save certificate failed"
        (Cert.saveCertificate m
           (BDer (SelfSigned (Cert.primaryDomain m) (Cert.domains m)
                    (x509_time nb) (x509_time (nb + e_tick env + 90 * 24 * Hour))
                    (RSAKey kc 2048)))) ;;;
      wrap "configure web server failed" (Cert.configureWebServer m) ;;;
      ret tt) env s2 = (r, s')) /\
  ((forall p, e_fs_fail env p = false) -> Cert.configurator m = false ->
   forallb is_ia5 (Cert.primaryDomain m :: Cert.domains m) = true ->
   r = Ok tt).
Proof.
  intros m env s r s' Hct Hw H Hno; unfold Cert.Install in H; rewrite Hw in H.
  simpl in H.
  bstep H E1.
  2: { apply wrap_Err_inv in E1 as (e9 & -> & E1).
       split; [intros e Heq; unfold Cert.ctx_obtain in Heq; congruence |].
       destruct (createCertDir_spec _ _ _ _ _ E1) as [(e8 & _ & ->) | (R & _)];
         [| discriminate].
       split; [left; exists (EWrap "create certificate directory failed" e9), [];
               rewrite app_nil_r; auto |].
       intros Hfs _ _; apply createCertDir_nofail in E1; [discriminate | exact Hfs]. }
  apply wrap_Ok_inv in E1.
  destruct (createCertDir_spec _ _ _ _ _ E1) as [(e8 & R & _) | (_ & T1 & F1)];
    [discriminate |].
  bstep H E2.
  2: { apply wrap_Err_inv in E2 as (e9 & -> & E2).
       split; [intros e Heq; unfold Cert.ctx_obtain in Heq; congruence |].
       destruct (generatePrivateKey_spec _ _ _ _ _ E2)
         as [(e8 & l & _ & T2 & F2) | (k & R & _)]; [| discriminate].
       split.
       - left; exists (EWrap "generate private key failed" e9),
           (EMkdir (Join [Cert.certDir m; Cert.getDirName m]) :: l).
         split; [reflexivity |]; split; [rewrite T2, T1, <- app_assoc; reflexivity |].
         constructor; [reflexivity | exact F2].
       - intros Hfs _ _; apply generatePrivateKey_nofail in E2 as (k & Hk);
           [discriminate | exact Hfs]. }
  apply wrap_Ok_inv in E2.
  destruct (generatePrivateKey_spec _ _ _ _ _ E2)
    as [(e8 & l & R & _) | (k & R & Hk & T2 & F2)]; [discriminate |].
  injection R as ->.
  bstep H E3.
  2: { destruct (createCSR_run _ _ _ _ _ _ E3) as (-> & Hn).
       apply wrap_Err_inv in E3 as (e9 & -> & _).
       split; [intros e Heq; unfold Cert.ctx_obtain in Heq; congruence |].
       split.
       - left; eexists; exists (EMkdir (Join [Cert.certDir m; Cert.getDirName m])
           :: [ECreate (Cert.getKeyPath m);
               EWrite (Cert.getKeyPath m) (BPemKey (RSAKey k (Cert.keySize m)));
               EChmod (Cert.getKeyPath m) 384]).
         split; [reflexivity |]; split; [rewrite T2, T1, <- app_assoc; reflexivity |].
         repeat constructor.
       - intros _ _ Ha; apply ascii_names_ok, Hn in Ha as [c Hc]; discriminate. }
  destruct (createCSR_run _ _ _ _ _ _ E3) as [-> Hn].
  assert (Hn' : x509_names_ok (Cert.primaryDomain m) (Cert.domains m) = true)
    by (apply Hn; eauto).
  bstep H E4.
  2: { apply wrap_Err_inv in E4 as (e9 & _ & E4).
       destruct (obtainCertificate_fallback _ _ _ _ _ _ Hct Hw Hn' E4 Hno)
         as (s9 & _ & _ & _ & R & _); discriminate. }
  apply wrap_Ok_inv in E4.
  match type of E4 with _ = (_, ?x) => rename x into s4 end.
  assert (Hno4 : existsb is_obtained (trace s4) = false).
  { lazymatch type of H with
    | ?mm _ _ = _ =>
        assert (HA : Appends (fun _ => True) mm)
          by (unfold Cert.configureWebServer, Cert.cfg_Configure, Cert.cfg_Test,
                Cert.cfg_Reload; appends_any)
    end.
    destruct (HA _ _ _ _ H) as (l9 & T & _); rewrite T, existsb_app in Hno.
    apply orb_false_iff in Hno as [Hno _]; exact Hno. }
  destruct (obtainCertificate_fallback _ _ _ _ _ _ Hct Hw Hn' E4 Hno4)
    as (s5 & (l5 & T5 & _) & N5 & K5 & R5 & T4 & F4).
  injection R5 as ->.
  split; [eapply Install_save_not_obtain_err; exact H |].
  split; [right | intros Hfs Hc _; eapply Install_save_ok; eauto].
  exists k, s4, (clock s5), (next_id s5); split; [| split; [| split]].
  - rewrite F4; apply K5, F2.
  - rewrite T4, T5, T2; apply in_or_app; left; apply in_or_app; right; simpl; auto.
  - lia.
  - exact H.
Qed.

(** Counterexample to C1 as stated: after a fallback run of [Install] the
    key file holds key 0 while the certificate is signed with key 2, a
    second key generated by [generateSelfSignedCert], not the key pair
    generated before. *)
Lemma Install_fallback_fresh_key :
  fst (Cert.Install Example4.m1 Example1.env_lego_down Example10.st0) = Ok tt /\
  option_map f_data
    (fs (snd (Cert.Install Example4.m1 Example1.env_lego_down Example10.st0))
        (Cert.getKeyPath Example4.m1)) = Some (BPemKey (RSAKey 0 2048)) /\
  option_map f_data
    (fs (snd (Cert.Install Example4.m1 Example1.env_lego_down Example10.st0))
        (Cert.getCertPath Example4.m1)) =
    Some (BPem (BDer (SelfSigned "example.com" ["example.com"]
                        0 (90 * 24 * Hour) (RSAKey 2 2048)))) /\
  RSAKey 0 2048 <> RSAKey 2 2048.
Proof.
  split; [vm_compute; reflexivity |].
  split; [vm_compute; reflexivity |].
  split; [vm_compute; reflexivity | discriminate].
Qed.

Lemma Install_acme_fallback_witness :
  exists r s',
  Cert.challengeType Example4.m1 <> Cert.ChallengeDNS /\
  Cert.HasWildcard Example4.m1 = false /\
  Cert.Install Example4.m1 Example1.env_lego_down Example10.st0 = (r, s') /\
  existsb is_obtained (trace s') = false /\
  (forall e, r <> Err (EWrap Cert.ctx_obtain e)) /\
  ((exists e l, r = Err e /\ trace s' = trace Example10.st0 ++ l /\
      Forall (fun ev => is_remote ev = false) l) \/
   exists kf s2 nb kc,
     fs s2 (Cert.getKeyPath Example4.m1) <> None /\
     In (EWrite (Cert.getKeyPath Example4.m1)
           (BPemKey (RSAKey kf (Cert.keySize Example4.m1)))) (trace s2) /\
     kf <> kc /\
     (wrap "save certificate failed"
        (Cert.saveCertificate Example4.m1
           (BDer (SelfSigned (Cert.primaryDomain Example4.m1)
                    (Cert.domains Example4.m1) (x509_time nb)
                    (x509_time (nb + e_tick Example1.env_lego_down + 90 * 24 * Hour))
                    (RSAKey kc 2048)))) ;;;
      wrap "configure web server failed" (Cert.configureWebServer Example4.m1) ;;;
      ret tt) Example1.env_lego_down s2 = (r, s')) /\
  ((forall p, e_fs_fail Example1.env_lego_down p = false) ->
   Cert.configurator Example4.m1 = false ->
   forallb is_ia5 (Cert.primaryDomain Example4.m1 :: Cert.domains Example4.m1) = true ->
   r = Ok tt).
Proof.
  set (run := Cert.Install Example4.m1 Example1.env_lego_down Example10.st0).
  exists (fst run), (snd run).
  split; [discriminate |]; split; [vm_compute; reflexivity |].
  split; [vm_compute; reflexivity |]; split; [vm_compute; reflexivity |].
  apply (Install_acme_fallback Example4.m1 Example1.env_lego_down Example10.st0
           (fst run));
    [discriminate | vm_compute; reflexivity | vm_compute; reflexivity
    | vm_compute; reflexivity].
Defined.

(* ================================================================== *)
(** * Further properties of the code *)

Lemma append_cancel_l (x a b : string) :
  String.append x a = String.append x b -> a = b.
Proof. induction x as [| c x IH]; simpl; [auto | intros H; injection H; auto]. Qed.

(** The three file paths of a manager's store are pairwise different:
    writing one never overwrites another. *)
Theorem store_paths_distinct : forall m,
  Cert.getCertPath m <> Cert.getKeyPath m /\
  Cert.getCertPath m <> Cert.getChainPath m /\
  Cert.getKeyPath m <> Cert.getChainPath m.
Proof.
  intros m; unfold Cert.getCertPath, Cert.getKeyPath, Cert.getChainPath; simpl.
  repeat split; intros H; apply append_cancel_l in H; injection H as H;
    apply append_cancel_l in H; discriminate.
Qed.

(** A single-domain manager whose domain is [p ++ "_san"] and a
    multi-domain manager whose primary domain is [p] use the same
    directory, hence the same certificate and key files. *)
Theorem getDirName_san_collision : forall m1 m2 p,
  Cert.certDir m1 = Cert.certDir m2 ->
  Cert.domains m1 = [String.append p "_san"] ->
  Cert.primaryDomain m1 = String.append p "_san" ->
  Cert.primaryDomain m2 = p ->
  (1 < length (Cert.domains m2))%nat ->
  Cert.getCertPath m1 = Cert.getCertPath m2 /\
  Cert.getKeyPath m1 = Cert.getKeyPath m2.
Proof.
  intros m1 m2 p Hd H1 Hp1 Hp2 Hl.
  assert (E : Cert.getDirName m1 = Cert.getDirName m2).
  { unfold Cert.getDirName; rewrite H1, Hp1, Hp2; simpl.
    destruct (1 <? Z.of_nat (length (Cert.domains m2)))%Z eqn:E; [reflexivity |].
    apply Z.ltb_ge in E; lia. }
  unfold Cert.getCertPath, Cert.getKeyPath; rewrite Hd, E; auto.
Qed.

(** [sanitizeEmail] keeps the length of the address and is idempotent:
    sanitizing a sanitized address changes nothing. *)
Theorem sanitizeEmail_idempotent : forall e,
  length (Acme.sanitizeEmail e) = length e /\
  Acme.sanitizeEmail (Acme.sanitizeEmail e) = Acme.sanitizeEmail e.
Proof.
  induction e as [| c e [IHl IHi]]; simpl; [auto |].
  rewrite IHl; split; [reflexivity |].
  destruct (Acme.sanitize_keeps c) eqn:K; rewrite ?K; simpl; rewrite IHi; reflexivity.
Qed.

Lemma GetCertInfo_Err_state m env s e s1 :
  Cert.GetCertInfo m env s = (Err e, s1) -> s1 = s.
Proof.
  intros H; unfold Cert.GetCertInfo, os_Exists, os_ReadFile, wrap, bind, get_st,
    ret, now, fail in H; cbv beta iota zeta in H.
  repeat (dmatch H; try discriminate); inversion H; auto.
Qed.

(** When the certificate cannot be read (no file, unreadable, not PEM, not
    a certificate), [Renew] fails with that error and changes nothing: in
    particular it never reinstalls. *)
Theorem Renew_unreadable_cert : forall m env s e s1,
  Cert.GetCertInfo m env s = (Err e, s1) ->
  Cert.Renew m env s = (Err (EWrap "get certificate info failed" e), s).
Proof.
  intros m env s e s1 H.
  pose proof (GetCertInfo_Err_state _ _ _ _ _ H); subst s1.
  unfold Cert.Renew, bind, wrap; rewrite H; reflexivity.
Qed.

(** With a clock that does not run backwards, a certificate that
    [GetCertInfo] reports as valid never has a negative number of days
    left. *)
Theorem GetCertInfo_valid_days_nonneg : forall m env s info s1,
  (0 <= e_tick env)%Z ->
  Cert.GetCertInfo m env s = (Ok info, s1) ->
  Cert.IsValid info = true -> (0 <= Cert.DaysLeft info)%Z.
Proof.
  intros m env s info s1 Ht H Hv.
  destruct (GetCertInfo_ok_inv _ _ _ _ _ H) as (c & _ & D & V).
  rewrite V in Hv; apply Z.ltb_lt in Hv.
  set (d := time_Sub (NotAfter c) (clock s)) in *.
  assert (Hd : 0 < d) by (unfold d, time_Sub, minDuration, maxDuration; lia).
  destruct (days_left_spec d (time_Sub_range _ _)) as [A _].
  pose proof (Z.quot_pos d (24 * Hour) ltac:(lia) ltac:(unfold Hour; lia)).
  rewrite Z.sgn_pos in A by lia.
  rewrite D; lia.
Qed.

Lemma fs_update_eq f p x : fs_update f p x p = Some x.
Proof. unfold fs_update, string_eqb; rewrite String.eqb_refl; reflexivity. Qed.

Lemma fs_update_ne f p x q : q <> p -> fs_update f p x q = f q.
Proof.
  intros Hne; unfold fs_update, string_eqb.
  destruct (String.eqb_spec q p); [contradiction | reflexivity].
Qed.

Lemma domains_txt_ne m :
  Cert.getCertPath m <> Join [Cert.certDir m; Cert.getDirName m; "domains.txt"].
Proof.
  unfold Cert.getCertPath; simpl; intros H; apply append_cancel_l in H;
    injection H as H; apply append_cancel_l in H; discriminate.
Qed.

(** Exact effect of the file primitives. *)
Lemma os_WriteFile_run p b perm env s r s' :
  os_WriteFile p b perm env s = (r, s') ->
  (r = Err os_error /\ s' = s /\ e_fs_fail env p = true) \/
  (r = Ok tt /\ e_fs_fail env p = false /\
   option_map f_data (fs s' p) = Some b /\
   (fs s p = None -> option_map f_perm (fs s' p) = Some perm) /\
   (forall q, q <> p -> fs s' q = fs s q) /\
   trace s' = trace s ++ [EWrite p b] /\ next_id s' = next_id s).
Proof.
  unfold os_WriteFile, bind, ask, get_st, emit, set_file, fail, ret.
  destruct (e_fs_fail env p) eqn:F; intros H; inversion H; subst; [left; auto | right].
  simpl; rewrite fs_update_eq; repeat split; auto.
  - intros ->; reflexivity.
  - intros q Hq; apply fs_update_ne, Hq.
Qed.

Lemma os_Create_run p env s r s' :
  os_Create p env s = (r, s') ->
  (r = Err os_error /\ s' = s /\ e_fs_fail env p = true) \/
  (r = Ok tt /\ e_fs_fail env p = false /\
   option_map f_data (fs s' p) = Some BEmpty /\
   (forall q, q <> p -> fs s' q = fs s q) /\
   trace s' = trace s ++ [ECreate p] /\ next_id s' = next_id s).
Proof.
  unfold os_Create, bind, ask, get_st, emit, set_file, fail, ret.
  destruct (e_fs_fail env p) eqn:F; intros H; inversion H; subst; [left; auto | right].
  simpl; rewrite fs_update_eq; repeat split; auto.
  intros q Hq; apply fs_update_ne, Hq.
Qed.

Lemma file_Write_run p b env s r s' :
  file_Write p b env s = (r, s') ->
  r = Ok tt /\ option_map f_data (fs s' p) = Some b /\
  (forall q, q <> p -> fs s' q = fs s q) /\
  trace s' = trace s ++ [EWrite p b] /\ next_id s' = next_id s.
Proof.
  unfold file_Write, bind, get_st, emit, set_file, ret; intros H.
  inversion H; subst; simpl; rewrite fs_update_eq; repeat split; auto.
  intros q Hq; apply fs_update_ne, Hq.
Qed.

(** [saveCertificate]: the result and the certificate file it leaves. *)
Lemma saveCertificate_run m b env s r s1 :
  Cert.saveCertificate m b env s = (r, s1) ->
  (r = Ok tt <-> e_fs_fail env (Cert.getCertPath m) = false) /\
  (r = Ok tt -> option_map f_data (fs s1 (Cert.getCertPath m)) = Some (BPem b)).
Proof.
  unfold Cert.saveCertificate; cbv zeta; intros H.
  bstep H E1.
  2: { destruct (os_Create_run _ _ _ _ _ E1) as [(R1 & _ & F1) | (R1 & _)];
       [| discriminate].
       rewrite F1; split; [split; discriminate | discriminate]. }
  destruct (os_Create_run _ _ _ _ _ E1) as [(R1 & _) | (_ & F1 & _)];
    [discriminate |].
  bstep H E2.
  2: { destruct (file_Write_run _ _ _ _ _ _ E2); discriminate. }
  destruct (file_Write_run _ _ _ _ _ _ E2) as (_ & D2 & _).
  rewrite F1; split; [split; auto |].
  - intros _. destruct (1 <? _)%Z.
    + bstep H E3.
      * unfold ret in H; congruence.
      * exfalso; unfold catch in E3; destruct (os_WriteFile _ _ _ _ _); discriminate.
    + unfold ret in H; congruence.
  - intros _. destruct (1 <? _)%Z.
    + bstep H E3.
      * unfold ret in H; injection H as _ <-.
        apply catch_inv in E3.
        destruct (os_WriteFile_run _ _ _ _ _ _ _ E3) as [(_ & -> & _) | (_ & _ & _ & _ & K3 & _)];
          [exact D2 |].
        rewrite K3 by apply domains_txt_ne; exact D2.
      * exfalso; unfold catch in E3; destruct (os_WriteFile _ _ _ _ _); discriminate.
    + unfold ret in H; injection H as _ <-; exact D2.
Qed.

(** What [GetCertInfo] reports when the certificate file holds one PEM
    block around [b]: certificate data is read back, anything else is
    rejected. *)
Lemma GetCertInfo_of_pem m env s b :
  option_map f_data (fs s (Cert.getCertPath m)) = Some (BPem b) ->
  match Cert.GetCertInfo m env s with
  | (Ok info, _) =>
      exists c, b = BDer c /\ Cert.Domains info = DNSNames c /\
        Cert.ExpiryDate info = NotAfter c /\
        Cert.Domain info = Cert.primaryDomain m
  | (Err _, _) => forall c, b <> BDer c
  end.
Proof.
  intros D.
  destruct (fs s (Cert.getCertPath m)) as [x|] eqn:F; [| discriminate].
  destruct x as [perm data]; injection D as ->.
  unfold Cert.GetCertInfo, os_Exists, os_ReadFile, wrap, bind, get_st, ret,
    now, fail; cbv beta iota zeta; rewrite F; simpl; rewrite F; simpl.
  destruct b; simpl; try (intros c0; discriminate).
  eexists; repeat split.
Qed.

(** Round trip: after [saveCertificate] succeeds, [GetCertInfo] succeeds
    exactly when the saved bytes are a certificate, and then reports that
    certificate's names and expiry. *)
Theorem saveCertificate_GetCertInfo m b env s s1 env' :
  Cert.saveCertificate m b env s = (Ok tt, s1) ->
  match Cert.GetCertInfo m env' s1 with
  | (Ok info, _) =>
      exists c, b = BDer c /\ Cert.Domains info = DNSNames c /\
        Cert.ExpiryDate info = NotAfter c /\
        Cert.Domain info = Cert.primaryDomain m
  | (Err _, _) => forall c, b <> BDer c
  end.
Proof.
  intros H; destruct (saveCertificate_run _ _ _ _ _ _ H) as [_ D].
  apply GetCertInfo_of_pem, D; reflexivity.
Qed.

Lemma join2_ne d x y : x <> y -> Join [d; x] <> Join [d; y].
Proof.
  intros Hxy H; simpl in H; apply append_cancel_l in H.
  injection H as H; exact (Hxy H).
Qed.

Lemma os_MkdirAll_run p env s r s' :
  os_MkdirAll p env s = (r, s') -> fs s' = fs s.
Proof.
  unfold os_MkdirAll, bind, ask, emit, fail.
  destruct (e_fs_fail env p); intros H; inversion H; reflexivity.
Qed.

Lemma catch_WriteFile_keep p b perm env s r s' :
  catch (os_WriteFile p b perm) env s = (Ok r, s') ->
  forall q, q <> p -> fs s' q = fs s q.
Proof.
  intros E q Hq; apply catch_inv in E.
  destruct (os_WriteFile_run _ _ _ _ _ _ _ E) as [(_ & -> & _) | (_ & _ & _ & _ & K & _)];
    [reflexivity | apply K, Hq].
Qed.

Ltac okstep H E := bstep H E; [| discriminate].

Ltac write_ok E D K :=
  let R := fresh "R" in
  destruct (os_WriteFile_run _ _ _ _ _ _ _ E) as [(R & _) | (_ & _ & D & _ & K & _)];
  [discriminate |].

(** After a successful [Acme.SaveCertificate], cert.pem, key.pem and
    fullchain.pem hold the resource's certificate, its private key and the
    certificate followed by the issuer (the certificate alone when there is
    no issuer), and chain.pem holds the issuer when there is one. *)
Theorem Acme_SaveCertificate_files c r d env s s1 :
  Acme.SaveCertificate c r d env s = (Ok tt, s1) ->
  option_map f_data (fs s1 (Join [d; "cert.pem"])) = Some (Acme.r_Certificate r) /\
  option_map f_data (fs s1 (Join [d; "key.pem"])) = Some (Acme.r_PrivateKey r) /\
  option_map f_data (fs s1 (Join [d; "fullchain.pem"])) =
    Some (match Acme.r_IssuerCertificate r with
          | Some i => BConcat (Acme.r_Certificate r) i
          | None => Acme.r_Certificate r
          end) /\
  (forall i, Acme.r_IssuerCertificate r = Some i ->
   option_map f_data (fs s1 (Join [d; "chain.pem"])) = Some i).
Proof.
  unfold Acme.SaveCertificate; cbv zeta; intros H.
  okstep H E1. okstep H E2.
  apply wrap_Ok_inv in E2; write_ok E2 D2 K2.
  okstep H E3.
  apply wrap_Ok_inv in E3; write_ok E3 D3 K3.
  destruct (Acme.r_IssuerCertificate r) as [i|] eqn:I.
  - okstep H E4.
    apply wrap_Ok_inv in E4; write_ok E4 D4 K4.
    okstep H E5.
    apply wrap_Ok_inv in E5; write_ok E5 D5 K5.
    okstep H E6.
    pose proof (catch_WriteFile_keep _ _ _ _ _ _ _ E6) as K6.
    unfold ret in H; injection H as ->.
    repeat split; [| | | intros i' Hi'; injection Hi' as <-];
    rewrite K6 by (apply join2_ne; discriminate);
    rewrite ?K5 by (apply join2_ne; discriminate);
    rewrite ?K4 by (apply join2_ne; discriminate);
    rewrite ?K3 by (apply join2_ne; discriminate); assumption.
  - okstep H E4.
    unfold ret in E4; injection E4 as _ <-.
    okstep H E5.
    apply wrap_Ok_inv in E5; write_ok E5 D5 K5.
    okstep H E6.
    pose proof (catch_WriteFile_keep _ _ _ _ _ _ _ E6) as K6.
    unfold ret in H; injection H as ->.
    repeat split; [| | | intros i' Hi'; discriminate];
    rewrite K6 by (apply join2_ne; discriminate);
    rewrite ?K5 by (apply join2_ne; discriminate);
    rewrite ?K3 by (apply join2_ne; discriminate); assumption.
Qed.

Lemma loadUser_spec uf kf env s u s1 :
  Acme.loadUser uf kf env s = (Ok u, s1) <->
  exists a i,
    option_map f_data (fs s uf) = Some (BAccount a) /\
    option_map f_data (fs s kf) = Some (BPemKey (ECKey i)) /\
    u = {| Acme.Email := acc_email a; Acme.Registration := acc_registration a;
           Acme.ukey := ECKey i |} /\ s1 = s.
Proof.
  unfold Acme.loadUser, os_ReadFile, bind, get_st, ret, fail; split.
  - destruct (fs s uf) as [[p1 d1]|]; simpl; [| discriminate].
    destruct d1; try discriminate.
    destruct (fs s kf) as [[p2 d2]|]; simpl; [| discriminate].
    destruct d2 as [| | k | | | |]; try discriminate; destruct k; try discriminate.
    intros H; injection H as <- <-; eauto 6.
  - intros (a & i & D1 & D2 & -> & ->).
    destruct (fs s uf) as [[p1 d1]|]; [| discriminate].
    injection D1 as ->; simpl.
    destruct (fs s kf) as [[p2 d2]|]; [| discriminate].
    injection D2 as ->; reflexivity.
Qed.

Lemma userFile_keyFile_ne dir email :
  Acme.userFile dir email <> Acme.keyFile dir email.
Proof. apply join2_ne; discriminate. Qed.

(** [loadOrCreateUser] for an e-mail without an account file creates a new,
    unregistered user whose EC key is the fresh one drawn at that point
    ([ECKey (next_id s)]), writes only that key to the key file and
    leaves the account file absent. *)
Theorem loadOrCreateUser_new dir email env s u s1 :
  fs s (Acme.userFile dir email) = None ->
  Acme.loadOrCreateUser dir email env s = (Ok u, s1) ->
  Acme.Email u = email /\ Acme.Registration u = None /\
  Acme.ukey u = ECKey (next_id s) /\
  option_map f_data (fs s1 (Acme.keyFile dir email)) = Some (BPemKey (Acme.ukey u)) /\
  fs s1 (Acme.userFile dir email) = None.
Proof.
  intros N H.
  unfold Acme.loadOrCreateUser, os_Exists, ecdsa_GenerateKey, fresh,
    os_MkdirAll, bind, get_st, ask, emit, fail, ret in H.
  rewrite N in H; cbv beta iota in H.
  destruct (e_fs_fail env (Acme.userDir dir email)); [discriminate |].
  destruct (os_WriteFile _ _ _ _ _) as [[a|e] s2] eqn:E; [| discriminate].
  injection H as <- <-.
  write_ok E D K.
  simpl; repeat split; eauto.
  rewrite K by (apply userFile_keyFile_ne); exact N.
Qed.

(** Round trip: after [saveUser] succeeds, [loadOrCreateUser] for the
    user's e-mail finds the saved account and returns its e-mail and
    registration, together with the EC key already stored in the key file
    ([saveUser] does not write the key). *)
Theorem saveUser_loadOrCreateUser c u env s s1 env' i :
  Acme.saveUser c u env s = (Ok tt, s1) ->
  option_map f_data (fs s (Acme.keyFile (Acme.configDir c) (Acme.Email u))) =
    Some (BPemKey (ECKey i)) ->
  Acme.loadOrCreateUser (Acme.configDir c) (Acme.Email u) env' s1 =
    (Ok {| Acme.Email := Acme.Email u; Acme.Registration := Acme.Registration u;
           Acme.ukey := ECKey i |}, s1).
Proof.
  unfold Acme.saveUser; intros H Dk.
  okstep H E1. apply os_MkdirAll_run in E1.
  write_ok H D K.
  assert (Dk' : option_map f_data (fs s1 (Acme.keyFile (Acme.configDir c) (Acme.Email u)))
                = Some (BPemKey (ECKey i))).
  { rewrite K by (intros Heq; symmetry in Heq; exact (userFile_keyFile_ne _ _ Heq)).
    congruence. }
  unfold Acme.loadOrCreateUser, os_Exists, bind, get_st, ret at 1.
  destruct (fs s1 (Acme.userFile _ _)) as [x|] eqn:F; [| discriminate].
  apply loadUser_spec.
  exists {| acc_email := Acme.Email u; acc_registration := Acme.Registration u |}, i.
  repeat split; [rewrite F; exact D | exact Dk'].
Qed.

(** ** Local-only effects *)

(** An event that is not a request to the ACME server. *)
Definition noremote (e : event) : Prop := is_remote e = false.

Lemma os_Create_nr p : Appends noremote (os_Create p).
Proof. unfold os_Create; appends_solve. Qed.
Lemma file_Write_nr p b : Appends noremote (file_Write p b).
Proof. unfold file_Write; appends_solve. Qed.
Lemma os_WriteFile_nr p b perm : Appends noremote (os_WriteFile p b perm).
Proof. unfold os_WriteFile; appends_solve. Qed.
Lemma os_Chmod_nr p perm : Appends noremote (os_Chmod p perm).
Proof. unfold os_Chmod; appends_solve. Qed.
Lemma os_MkdirAll_nr p : Appends noremote (os_MkdirAll p).
Proof. unfold os_MkdirAll; appends_solve. Qed.
Lemma os_Exists_nr p : Appends noremote (os_Exists p).
Proof. unfold os_Exists; appends_solve. Qed.
Lemma os_ReadFile_nr p : Appends noremote (os_ReadFile p).
Proof. unfold os_ReadFile; appends_solve. Qed.
Lemma rsa_GenerateKey_nr b : Appends noremote (rsa_GenerateKey b).
Proof. unfold rsa_GenerateKey; appends_solve. Qed.

Create HintDb noremote.
#[export] Hint Resolve os_Create_nr file_Write_nr os_WriteFile_nr os_Chmod_nr
  os_MkdirAll_nr os_Exists_nr os_ReadFile_nr rsa_GenerateKey_nr : noremote.

Ltac nr_solve :=
  cbv zeta;
  repeat first [ appends_step | solve [eauto with noremote] ].

Lemma generateSelfSignedCert_nr m c : Appends noremote (Cert.generateSelfSignedCert m c).
Proof. unfold Cert.generateSelfSignedCert; destruct c; nr_solve. Qed.
#[export] Hint Resolve generateSelfSignedCert_nr : noremote.

Lemma NewClient_noemail cfg env s :
  Acme.cfg_Email cfg = [] ->
  Acme.NewClient cfg env s = (Err (EMsg "email must not be empty"), s).
Proof. intros E; unfold Acme.NewClient; rewrite E; reflexivity. Qed.

Lemma obtainWithACME_noemail_nr m ct :
  Cert.email m = [] -> Appends noremote (Cert.obtainWithACME m ct).
Proof.
  intros E env s r s' H; unfold Cert.obtainWithACME, bind, catch in H.
  rewrite NewClient_noemail in H by exact E.
  exact (generateSelfSignedCert_nr m None env s r s' H).
Qed.

Lemma obtainCertificate_noemail_nr m csr :
  Cert.email m = [] -> Appends noremote (Cert.obtainCertificate m csr).
Proof.
  intros E; unfold Cert.obtainCertificate, Cert.obtainCertificateWebroot,
    Cert.obtainCertificateStandalone, Cert.obtainCertificateDNS.
  destruct (Cert.challengeType m); nr_solve;
    apply obtainWithACME_noemail_nr, E.
Qed.

Lemma Install_noemail_nr m :
  Cert.email m = [] -> Appends noremote (Cert.Install m).
Proof.
  intros E; pose proof (obtainCertificate_noemail_nr m) as HO.
  unfold Cert.Install, Cert.createCertDir, Cert.generatePrivateKey,
    Cert.createCSR, Cert.saveCertificate, Cert.configureWebServer,
    Cert.cfg_Configure, Cert.cfg_Test, Cert.cfg_Reload.
  nr_solve.
Qed.

Lemma GetCertInfo_nr m : Appends noremote (Cert.GetCertInfo m).
Proof. unfold Cert.GetCertInfo; nr_solve. Qed.

(** The renew command never contacts the ACME server: the manager it
    builds has an empty e-mail, so [NewClient] fails before any request and
    [Install] falls back to a self-signed certificate. Every event it adds
    to the trace is local. *)
Theorem runRenew_no_remote dir d :
  Appends noremote (CmdRenew.runRenew dir d).
Proof.
  unfold CmdRenew.runRenew, CmdRenew.renewAllCerts, CmdRenew.renewDomainCert.
  destruct (negb (string_eqb d "")); [| apply Appends_ret].
  destruct (CertCtor.NewManager d [] dir) as [m|] eqn:NM; [| apply Appends_fail].
  assert (E : Cert.email m = []).
  { unfold CertCtor.NewManager in NM.
    destruct (CertCtor.parseDomainList d); [discriminate |].
    injection NM as <-; reflexivity. }
  apply Appends_wrap; unfold Cert.Renew.
  apply Appends_bind; [apply Appends_wrap, GetCertInfo_nr | intros info].
  destruct (_ >? 30)%Z; [apply Appends_ret | apply Install_noemail_nr, E].
Qed.

(** With the DNS challenge, [Install] never contacts the ACME server: the
    certificate is self-signed from the CSR and every event it adds to the
    trace is local. *)
Theorem Install_dns_no_remote : forall m,
  Cert.challengeType m = Cert.ChallengeDNS ->
  Appends noremote (Cert.Install m).
Proof.
  intros m Hc.
  assert (HO : forall csr, Appends noremote (Cert.obtainCertificate m csr)).
  { intros csr; unfold Cert.obtainCertificate, Cert.obtainCertificateDNS; rewrite Hc.
    apply generateSelfSignedCert_nr. }
  unfold Cert.Install, Cert.createCertDir, Cert.generatePrivateKey,
    Cert.createCSR, Cert.saveCertificate, Cert.configureWebServer,
    Cert.cfg_Configure, Cert.cfg_Test, Cert.cfg_Reload.
  nr_solve.
Qed.

(** ** Certificates obtained from the ACME server *)

Definition notobt (e : event) : Prop := is_obtained e = false.

Lemma noremote_notobt e : noremote e -> notobt e.
Proof. unfold noremote, notobt; destruct e; simpl; auto; discriminate. Qed.

Lemma notobt_not_in l : Forall notobt l -> ~ In (ERemote RObtain true) l.
Proof.
  intros F I; rewrite Forall_forall in F; specialize (F _ I); discriminate.
Qed.

Ltac ob_solve :=
  cbv zeta;
  repeat first [ appends_step
               | solve [eapply Appends_weaken; [exact noremote_notobt | eauto with noremote]] ].

Lemma NewClient_ob cfg : Appends notobt (Acme.NewClient cfg).
Proof.
  unfold Acme.NewClient, Acme.loadOrCreateUser, Acme.loadUser, Acme.saveUser,
    Acme.lego_NewClient, Acme.lego_Register, ecdsa_GenerateKey; ob_solve.
Qed.

Lemma SaveCertificate_nr c r d : Appends noremote (Acme.SaveCertificate c r d).
Proof. unfold Acme.SaveCertificate; nr_solve. Qed.

Lemma generateSelfSignedCert_der m c env s b s' :
  Cert.generateSelfSignedCert m c env s = (Ok b, s') ->
  exists cert, b = BDer cert /\ trace s' = trace s /\ fs s' = fs s.
Proof.
  unfold Cert.generateSelfSignedCert, bind, now, rsa_GenerateKey, fresh, ret, fail.
  destruct c; simpl; destruct (x509_names_ok _ _); simpl; intros H;
    inversion H; subst; simpl; eauto.
Qed.

(** What [obtainWithACME] returns: the issued certificate bundle, after the
    server granted the order, or a self-signed certificate, with no
    granted order. *)
Lemma obtainWithACME_result m ct env s b s1 :
  Cert.obtainWithACME m ct env s = (Ok b, s1) ->
  exists l, trace s1 = trace s ++ l /\
    ((In (ERemote RObtain true) l /\
      exists c i, b = BConcat (BPem (BDer c)) i) \/
     (Forall notobt l /\ exists c, b = BDer c)).
Proof.
  intros H; unfold Cert.obtainWithACME in H.
  bstep H E1; [| exfalso; eapply catch_not_Err; [reflexivity | exact E1]].
  destruct (Appends_catch _ _ (NewClient_ob _) _ _ _ _ E1) as (l1 & T1 & F1 & _).
  destruct a as [client | e1].
  2: { apply generateSelfSignedCert_der in H as (c & -> & T & _).
       exists l1; split; [rewrite T, T1; reflexivity | right; eauto]. }
  bstep H E2; [| exfalso; eapply catch_not_Err; [reflexivity | exact E2]].
  assert (HA2 : Appends notobt (match ct with
                  | Acme.ChallengeHTTP01 => Acme.SetHTTPChallenge client
                  | Acme.ChallengeTLSALPN01 => Acme.SetTLSChallenge client
                  | Acme.ChallengeDNS01 => ret tt end))
    by (destruct ct; unfold Acme.SetHTTPChallenge, Acme.SetTLSChallenge,
          Acme.set_provider; ob_solve).
  destruct (Appends_catch _ _ HA2 _ _ _ _ E2) as (l2 & T2 & F2 & _).
  destruct a as [u | e2].
  2: { apply generateSelfSignedCert_der in H as (c & -> & T & _).
       exists (l1 ++ l2); split; [rewrite T, T2, T1, app_assoc; reflexivity |].
       right; split; [apply Forall_app; auto | eauto]. }
  bstep H E3; [| exfalso; eapply catch_not_Err; [reflexivity | exact E3]].
  apply catch_inv, ObtainCertificate_run in E3
    as [(e3 & -> & T3) | (cert & c0 & -> & T3 & C)].
  - apply generateSelfSignedCert_der in H as (c & -> & T & _).
    exists (l1 ++ l2 ++ [ERemote RObtain false]); split;
      [rewrite T, T3, T2, T1, !app_assoc; reflexivity |].
    right; split; [| eauto].
    apply Forall_app; split; [auto | apply Forall_app; split; [auto |]].
    repeat constructor.
  - okstep H E4.
    apply wrap_Ok_inv in E4.
    destruct (SaveCertificate_nr _ _ _ _ _ _ _ E4) as (l4 & T4 & _).
    unfold ret in H; injection H as <- <-.
    exists (l1 ++ l2 ++ [ERemote RObtain true] ++ l4); split;
      [rewrite T4, T3, T2, T1, !app_assoc; reflexivity |].
    left; split; [| eauto].
    apply in_app_iff; right; apply in_app_iff; right; left; reflexivity.
Qed.

Lemma obtainCertificate_result m csr env s b s1 :
  Cert.obtainCertificate m csr env s = (Ok b, s1) ->
  exists l, trace s1 = trace s ++ l /\
    ((In (ERemote RObtain true) l /\
      exists c i, b = BConcat (BPem (BDer c)) i) \/
     (Forall notobt l /\ exists c, b = BDer c)).
Proof.
  unfold Cert.obtainCertificate, Cert.obtainCertificateWebroot,
    Cert.obtainCertificateStandalone, Cert.obtainCertificateDNS.
  destruct (Cert.challengeType m);
    try (destruct (Cert.HasWildcard m); [discriminate | apply obtainWithACME_result]).
  intros H; apply generateSelfSignedCert_der in H as (c & -> & T & _).
  exists []; rewrite app_nil_r; split; [exact T | right; eauto].
Qed.

Lemma configureWebServer_fs m env s r s' :
  Cert.configureWebServer m env s = (r, s') -> fs s' = fs s.
Proof.
  unfold Cert.configureWebServer, Cert.cfg_Configure, Cert.cfg_Test,
    Cert.cfg_Reload, wrap, bind, ask, emit, ret, fail.
  intros H; simpl in H.
  destruct (Cert.configurator m); simpl in H; [| inversion H; reflexivity].
  destruct (e_configure_ok env); simpl in H; [| inversion H; reflexivity].
  destruct (e_test_ok env); simpl in H; [| inversion H; reflexivity].
  destruct (e_reload_ok env); simpl in H; inversion H; reflexivity.
Qed.

Ltac nr_fact HA E l F :=
  let T := fresh "T" in
  destruct (HA _ _ _ _ E) as (l & T & F & _); rewrite ?T in *.

(** After a successful [Install], [GetCertInfo] fails exactly when the
    ACME server granted the certificate order: the issued bundle (itself
    PEM) is PEM-encoded once more into cert.pem, which does not parse as a
    certificate, while a self-signed fallback certificate reads back. *)
Theorem Install_acme_cert_unreadable : forall m env s s1 env',
  Cert.Install m env s = (Ok tt, s1) ->
  exists l, trace s1 = trace s ++ l /\
    (In (ERemote RObtain true) l <->
     exists e s2, Cert.GetCertInfo m env' s1 = (Err e, s2)).
Proof.
  intros m env s s1 env' H; unfold Cert.Install in H.
  destruct (_ && _); [discriminate |].
  okstep H E1.
  assert (HA1 : Appends noremote (wrap "create certificate directory failed"
                                    (Cert.createCertDir m)))
    by (apply Appends_wrap; unfold Cert.createCertDir; eauto with noremote).
  destruct (HA1 _ _ _ _ E1) as (l1 & T1 & F1 & _).
  okstep H E2.
  assert (HA2 : Appends noremote (wrap "generate private key failed"
                                    (Cert.generatePrivateKey m)))
    by (apply Appends_wrap; unfold Cert.generatePrivateKey; nr_solve).
  destruct (HA2 _ _ _ _ E2) as (l2 & T2 & F2 & _).
  okstep H E3.
  destruct (createCSR_run _ _ _ _ _ _ E3) as [-> _].
  okstep H E4.
  match type of E4 with _ = (Ok ?x, _) => rename x into b end.
  apply wrap_Ok_inv, obtainCertificate_result in E4 as (lo & To & Ho).
  okstep H E5.
  match type of E5 with _ = (Ok ?x, _) => destruct x end.
  apply wrap_Ok_inv in E5.
  assert (HA5 : Appends noremote (Cert.saveCertificate m b))
    by (unfold Cert.saveCertificate; nr_solve).
  destruct (HA5 _ _ _ _ E5) as (l5 & T5 & F5 & _).
  destruct (saveCertificate_run _ _ _ _ _ _ E5) as [_ D5].
  specialize (D5 eq_refl).
  okstep H E6.
  apply wrap_Ok_inv in E6.
  assert (HA6 : Appends noremote (Cert.configureWebServer m))
    by (unfold Cert.configureWebServer, Cert.cfg_Configure, Cert.cfg_Test,
          Cert.cfg_Reload; nr_solve).
  destruct (HA6 _ _ _ _ E6) as (l6 & T6 & F6 & _).
  apply configureWebServer_fs in E6.
  unfold ret in H; injection H as ->.
  assert (D : option_map f_data (fs s1 (Cert.getCertPath m)) = Some (BPem b))
    by (rewrite E6; exact D5).
  pose proof (GetCertInfo_of_pem m env' s1 b D) as G.
  exists (l1 ++ l2 ++ lo ++ l5 ++ l6); split.
  { rewrite T6, T5, To, T2, T1, !app_assoc; reflexivity. }
  assert (NO : forall l, Forall noremote l -> ~ In (ERemote RObtain true) l)
    by (intros l Fl; apply notobt_not_in; eapply Forall_impl;
        [exact noremote_notobt | exact Fl]).
  rewrite !in_app_iff.
  destruct Ho as [(I & c & i & ->) | (Fo & c & ->)].
  - split; [intros _ | intros _; auto].
    destruct (Cert.GetCertInfo m env' s1) as [[info | e] s9].
    + destruct G as (c' & Hc' & _); discriminate.
    + eauto.
  - split.
    + intros [I | [I | [I | [I | I]]]]; exfalso;
        [exact (NO _ F1 I) | exact (NO _ F2 I) | exact (notobt_not_in _ Fo I)
        | exact (NO _ F5 I) | exact (NO _ F6 I)].
    + intros (e & s9 & G'); rewrite G' in G; exfalso; exact (G c eq_refl).
Qed.

Module ExampleX.
Import Cert.

(** A single-domain manager for "a.com_san" and a two-domain manager whose
    primary domain is "a.com", both under /etc/autocert. *)
Definition m_single : Manager :=
  {| domains := ["a.com_san"]; primaryDomain := "a.com_san";
     email := runes "admin@example.com"; challengeType := ChallengeWebroot;
     webrootPath := ""; webServerType := WebServerNginx;
     certDir := "/etc/autocert"; keySize := 2048; configurator := false |}.
Definition m_multi : Manager :=
  {| domains := ["a.com"; "b.com"]; primaryDomain := "a.com";
     email := runes "admin@example.com"; challengeType := ChallengeWebroot;
     webrootPath := ""; webServerType := WebServerNginx;
     certDir := "/etc/autocert"; keySize := 2048; configurator := false |}.

(** Only domains.txt of [m_multi] cannot be written. *)
Definition env_domains_fail : Env :=
  {| e_fs_fail := fun p => string_eqb p "/etc/autocert/a.com_san/domains.txt";
     e_lego_ok := true; e_register_ok := true; e_challenge_ok := true;
     e_obtain := Some (90 * 24 * Hour); e_configure_ok := true;
     e_test_ok := true; e_reload_ok := true; e_tick := 0 |}.

Definition cert0 : certificate :=
  SelfSigned "example.com" ["example.com"] 0 (90 * 24 * Hour) (RSAKey 7 2048).

Definition email0 : list rune := runes "admin@example.com".

Definition client0 : Acme.Client :=
  {| Acme.user := {| Acme.Email := email0; Acme.Registration := Some 3%nat;
                     Acme.ukey := ECKey 0%nat |};
     Acme.configDir := "/etc/autocert"; Acme.staging := false;
     Acme.webroot := "" |}.

Definition res0 : Acme.Resource :=
  {| Acme.r_Domain := "example.com";
     Acme.r_Certificate := BConcat (BPem (BDer cert0)) (BPem (BText "issuer"));
     Acme.r_PrivateKey := BPemKey (RSAKey 7 2048);
     Acme.r_IssuerCertificate := Some (BPem (BText "issuer")) |}.

(** The state after a new account for [email0] was created. *)
Definition st_account : St :=
  snd (Acme.loadOrCreateUser "/etc/autocert" email0 Example4.env_ok Example10.st0).

End ExampleX.

Lemma getDirName_san_collision_witness :
  Cert.getCertPath ExampleX.m_single = Cert.getCertPath ExampleX.m_multi /\
  Cert.getKeyPath ExampleX.m_single = Cert.getKeyPath ExampleX.m_multi.
Proof.
  apply (getDirName_san_collision ExampleX.m_single ExampleX.m_multi "a.com");
    vm_compute; first [reflexivity | lia].
Defined.

Lemma Renew_unreadable_cert_witness :
  exists e s1,
    Cert.GetCertInfo Example4.m1 Example4.env_ok Example10.st0 = (Err e, s1) /\
    Cert.Renew Example4.m1 Example4.env_ok Example10.st0 =
      (Err (EWrap "get certificate info failed" e), Example10.st0).
Proof.
  set (run := Cert.GetCertInfo Example4.m1 Example4.env_ok Example10.st0).
  exists (EMsg "certificate file does not exist"), (snd run).
  split; [vm_compute; reflexivity |].
  apply (Renew_unreadable_cert Example4.m1 Example4.env_ok Example10.st0
           (EMsg "certificate file does not exist") (snd run)).
  vm_compute; reflexivity.
Defined.

Ltac wsolve := vm_compute; first [reflexivity | discriminate | lia].

Lemma GetCertInfo_valid_days_nonneg_witness :
  exists info s1,
    Cert.GetCertInfo Example4.m1 Example4.env_ok (Example4.st_with_cert (30 * Hour) 0)
      = (Ok info, s1) /\ (0 <= Cert.DaysLeft info)%Z.
Proof.
  eexists; eexists; split; [vm_compute; reflexivity |].
  eapply (GetCertInfo_valid_days_nonneg Example4.m1 Example4.env_ok
            (Example4.st_with_cert (30 * Hour) 0)); wsolve.
Defined.

Lemma saveCertificate_GetCertInfo_witness :
  exists s1,
    Cert.saveCertificate Example4.m1 (BDer ExampleX.cert0) Example4.env_ok
      Example10.st0 = (Ok tt, s1) /\
    match Cert.GetCertInfo Example4.m1 Example4.env_ok s1 with
    | (Ok info, _) =>
        exists c, BDer ExampleX.cert0 = BDer c /\ Cert.Domains info = DNSNames c /\
          Cert.ExpiryDate info = NotAfter c /\
          Cert.Domain info = Cert.primaryDomain Example4.m1
    | (Err _, _) => forall c, BDer ExampleX.cert0 <> BDer c
    end.
Proof.
  eexists; split; [vm_compute; reflexivity |].
  eapply (saveCertificate_GetCertInfo Example4.m1 (BDer ExampleX.cert0)
            Example4.env_ok Example10.st0); vm_compute; reflexivity.
Defined.

Lemma Acme_SaveCertificate_files_witness :
  exists s1,
    Acme.SaveCertificate ExampleX.client0 ExampleX.res0 "/etc/autocert/example.com"
      Example4.env_ok Example10.st0 = (Ok tt, s1) /\
    option_map f_data (fs s1 (Join ["/etc/autocert/example.com"; "fullchain.pem"])) =
      Some (BConcat (Acme.r_Certificate ExampleX.res0) (BPem (BText "issuer"))).
Proof.
  eexists; split; [vm_compute; reflexivity |].
  eapply (Acme_SaveCertificate_files ExampleX.client0 ExampleX.res0
            "/etc/autocert/example.com" Example4.env_ok Example10.st0);
    vm_compute; reflexivity.
Defined.

Lemma loadOrCreateUser_new_witness :
  exists u s1,
    Acme.loadOrCreateUser "/etc/autocert" ExampleX.email0 Example4.env_ok
      Example10.st0 = (Ok u, s1) /\
    fs s1 (Acme.userFile "/etc/autocert" ExampleX.email0) = None.
Proof.
  eexists; eexists; split; [vm_compute; reflexivity |].
  eapply (loadOrCreateUser_new "/etc/autocert" ExampleX.email0 Example4.env_ok
            Example10.st0); vm_compute; reflexivity.
Defined.

Lemma saveUser_loadOrCreateUser_witness :
  exists s1,
    Acme.saveUser ExampleX.client0 (Acme.user ExampleX.client0) Example4.env_ok
      ExampleX.st_account = (Ok tt, s1) /\
    Acme.loadOrCreateUser "/etc/autocert" ExampleX.email0 Example4.env_ok s1 =
      (Ok {| Acme.Email := ExampleX.email0; Acme.Registration := Some 3%nat;
             Acme.ukey := ECKey 0%nat |}, s1).
Proof.
  eexists; split; [vm_compute; reflexivity |].
  apply (saveUser_loadOrCreateUser ExampleX.client0 (Acme.user ExampleX.client0)
           Example4.env_ok ExampleX.st_account); vm_compute; reflexivity.
Defined.

Lemma Install_dns_no_remote_witness :
  Appends noremote (Cert.Install (Cert.SetChallengeType Example4.m1 Cert.ChallengeDNS)).
Proof. apply Install_dns_no_remote; reflexivity. Defined.

Lemma Install_acme_cert_unreadable_witness :
  exists s1,
    Cert.Install Example4.m1 Example4.env_ok Example10.st0 = (Ok tt, s1) /\
    exists l, trace s1 = trace Example10.st0 ++ l /\
      (In (ERemote RObtain true) l <->
       exists e s2, Cert.GetCertInfo Example4.m1 Example4.env_ok s1 = (Err e, s2)).
Proof.
  eexists; split; [vm_compute; reflexivity |].
  eapply (Install_acme_cert_unreadable Example4.m1 Example4.env_ok Example10.st0);
    vm_compute; reflexivity.
Defined.


Lemma append_assoc_str (a b c : string) :
  String.append (String.append a b) c = String.append a (String.append b c).
Proof. induction a as [| x a IH]; simpl; [reflexivity | rewrite IH; reflexivity]. Qed.

(** After [generatePrivateKey] succeeds, the key file holds exactly the new
    RSA key (of the manager's key size) in PEM form, with mode 0600. *)
Theorem generatePrivateKey_key_file : forall m env s k s1,
  Cert.generatePrivateKey m env s = (Ok k, s1) ->
  k = RSAKey (next_id s) (Cert.keySize m) /\
  fs s1 (Cert.getKeyPath m) = Some {| f_perm := 384; f_data := BPemKey k |}.
Proof.
  intros m env s k s1.
  unfold Cert.generatePrivateKey, os_Create, file_Write, os_Chmod,
    rsa_GenerateKey, fresh, bind, ask, get_st, emit, set_file, fail, ret.
  intros H; cbv zeta in H; simpl in H.
  destruct (e_fs_fail env (Cert.getKeyPath m)) eqn:F; simpl in H; [discriminate |].
  unfold fs_update in H; rewrite !String.eqb_refl in H; simpl in H; rewrite ?F in H; simpl in H.
  inversion H; subst; simpl; unfold string_eqb.
  rewrite String.eqb_refl; auto.
Qed.

(** The status and renew commands build a single-domain manager from the
    domain they are given, so for the primary domain of a multi-domain
    installation they use a different certificate file (and key file) than
    the one [Install] wrote under "<domain>_san". *)
Theorem domain_manager_misses_multi_domain : forall d dir m m',
  CertCtor.NewManager d [] dir = Some m' ->
  Cert.domains m' = [d] ->
  Cert.certDir m = dir -> Cert.primaryDomain m = d ->
  (1 < length (Cert.domains m))%nat ->
  Cert.getCertPath m' <> Cert.getCertPath m /\
  Cert.getKeyPath m' <> Cert.getKeyPath m.
Proof.
  intros d dir m m' NM D1 Hd Hp Hl.
  assert (Dir' : Cert.certDir m' = dir).
  { unfold CertCtor.NewManager in NM.
    destruct (CertCtor.parseDomainList d); [discriminate |].
    injection NM as <-; reflexivity. }
  assert (N1 : Cert.getDirName m' = d).
  { unfold Cert.getDirName; rewrite D1; simpl.
    unfold CertCtor.NewManager in NM.
    destruct (CertCtor.parseDomainList d) as [| d0 r] eqn:E; [discriminate |].
    injection NM as <-; simpl in D1 |- *; injection D1 as -> _; reflexivity. }
  assert (N2 : Cert.getDirName m = String.append d "_san").
  { unfold Cert.getDirName; rewrite Hp.
    destruct (1 <? Z.of_nat (length (Cert.domains m)))%Z eqn:E; [reflexivity |].
    apply Z.ltb_ge in E; lia. }
  unfold Cert.getCertPath, Cert.getKeyPath; rewrite Dir', Hd, N1, N2; simpl.
  split; intros H; apply append_cancel_l in H; injection H as H;
    rewrite append_assoc_str in H; apply append_cancel_l in H; discriminate.
Qed.

Lemma generatePrivateKey_key_file_witness :
  exists k s1,
    Cert.generatePrivateKey Example4.m1 Example4.env_ok Example10.st0 = (Ok k, s1) /\
    k = RSAKey 0 2048 /\
    fs s1 (Cert.getKeyPath Example4.m1) = Some {| f_perm := 384; f_data := BPemKey k |}.
Proof.
  eexists; eexists; split; [vm_compute; reflexivity |].
  eapply (generatePrivateKey_key_file Example4.m1 Example4.env_ok Example10.st0);
    vm_compute; reflexivity.
Defined.

Lemma domain_manager_misses_multi_domain_witness :
  exists m', CertCtor.NewManager "a.com" [] "/etc/autocert" = Some m' /\
    Cert.getCertPath m' <> Cert.getCertPath ExampleX.m_multi /\
    Cert.getKeyPath m' <> Cert.getKeyPath ExampleX.m_multi.
Proof.
  eexists; split; [vm_compute; reflexivity |].
  eapply (domain_manager_misses_multi_domain "a.com" "/etc/autocert" ExampleX.m_multi);
    wsolve.
Defined.
